(** * Page metadata and JSON-LD builders of [lib/construct-metadata.ts]

    A shallow embedding of the module and the proofs of its documented
    behaviour.  JavaScript strings are sequences of UTF-16 code units,
    numbers are binary64 values, [undefined] is [None], and a call of the
    platform's [URL] constructor may throw. *)

From Stdlib Require Import List ZArith NArith Lia Bool Ascii String.
From Stdlib Require Import SpecFloat DecimalString DecimalPos DecimalN.
From stdpp Require Import gmap strings.

Set Default Proof Using "Type".

(** ** JavaScript strings *)

Module JS.
Local Open Scope N_scope.

(** A string is the list of its UTF-16 code units; [length] is the
    [.length] property. *)
Definition jsstring := list N.

(** An ASCII literal of the source. *)
Definition lit (s : string) : jsstring :=
  map N_of_ascii (list_ascii_of_string s).

(** ToBoolean on a string: only the empty string is falsy. *)
Definition truthy (s : jsstring) : bool :=
  match s with [] => false | _ :: _ => true end.

(** WhiteSpace and LineTerminator code points of ECMA-262, the ones
    [trim] removes. *)
Definition isWhiteSpace (c : N) : bool :=
  (9 <=? c) && (c <=? 13) || (c =? 32) || (c =? 160) || (c =? 5760)
  || (8192 <=? c) && (c <=? 8202) || (c =? 8232) || (c =? 8233)
  || (c =? 8239) || (c =? 8287) || (c =? 12288) || (c =? 65279).

Fixpoint trimStart (s : jsstring) : jsstring :=
  match s with
  | c :: t => if isWhiteSpace c then trimStart t else s
  | [] => []
  end.

Definition trimEnd (s : jsstring) : jsstring := rev (trimStart (rev s)).

Definition trim (s : jsstring) : jsstring := trimEnd (trimStart s).

(** [is_prefix p s]: the code units of [p] open [s]. *)
Fixpoint is_prefix (p s : jsstring) : bool :=
  match p, s with
  | [], _ => true
  | c :: p', d :: s' => (c =? d) && is_prefix p' s'
  | _ :: _, [] => false
  end.

(** [s.startsWith(p)] *)
Definition startsWith (s p : jsstring) : bool := is_prefix p s.

(** [s.includes(p)] *)
Fixpoint includes (s p : jsstring) : bool :=
  is_prefix p s ||
  match s with
  | [] => false
  | _ :: t => includes t p
  end.

(** [s.replace(p, r)] for a string pattern [p]: the first occurrence
    only.  The replacement strings of this module hold no [$]. *)
Fixpoint replace (s p r : jsstring) : jsstring :=
  if is_prefix p s then r ++ drop (length p) s
  else match s with
       | [] => []
       | c :: t => c :: replace t p r
       end.

(** [s.substring(from, to)]: both indices are clamped to the string,
    and swapped when they come in the wrong order. *)
Definition substring (s : jsstring) (from to : Z) : jsstring :=
  let len := Z.of_nat (length s) in
  let a := Z.min (Z.max from 0) len in
  let b := Z.min (Z.max to 0) len in
  let lo := Z.min a b in
  let hi := Z.max a b in
  take (Z.to_nat (hi - lo)) (drop (Z.to_nat lo) s).

End JS.

Abbreviation jsstring := JS.jsstring.

(** ** JavaScript numbers *)

Module Number.
Local Open Scope Z_scope.

(** A Number is a binary64 value: sign, mantissa and exponent, the two
    zeros, the two infinities and NaN. *)
Definition number := spec_float.

Definition prec : Z := 53.
Definition emax : Z := 1024.

(** The Number nearest to an integer (ties to even); exact below 2^53. *)
Definition of_Z (z : Z) : number := binary_normalize prec emax z 0 false.

(** ToBoolean on a Number: [+0], [-0] and [NaN] are falsy. *)
Definition truthy (x : number) : bool :=
  match x with
  | S754_zero _ | S754_nan => false
  | S754_infinity _ | S754_finite _ _ _ => true
  end.

(** The decimal digits of a non-negative integer, ["0"] for zero. *)
Definition digits (n : Z) : jsstring :=
  JS.lit (NilEmpty.string_of_uint (N.to_uint (Z.to_N n))).

(** [ge_1e21 m e]: the magnitude [m * 2^e] is at least 10^21. *)
Definition ge_1e21 (m : positive) (e : Z) : bool :=
  match e with
  | Zneg p => 10 ^ 21 * 2 ^ Zpos p <=? Zpos m
  | _ => 10 ^ 21 <=? Zpos m * 2 ^ e
  end.

(** The integer [n] for which [n / 10^f - m * 2^e] is as close to zero
    as possible, the larger one when there are two. *)
Definition nearest (m : positive) (e : Z) (f : nat) : Z :=
  let scale := 10 ^ Z.of_nat f in
  match e with
  | Zneg p =>
      let den := 2 ^ Zpos p in
      (2 * (Zpos m * scale) + den) / (2 * den)
  | _ => Zpos m * 2 ^ e * scale
  end.

(** The digits of [n] with the decimal point [f] places from the
    right, after padding with zeros up to [f + 1] digits. *)
Definition fixed (n : Z) (f : nat) : jsstring :=
  let m := digits n in
  match f with
  | O => m
  | S _ =>
      let m := repeat 48%N (f + 1 - length m) ++ m in
      let k := length m in
      take (k - f) m ++ JS.lit "." ++ drop (k - f) m
  end.

Definition rounds_to (target : number) (v : Z) : bool :=
  SFeqb (of_Z v) target.

(** The shortest decimal that reads back as the Number of value [X]:
    the multiple of [10^(n-k)] next below or above [X], for the least
    [k] where one of them rounds to it, the nearer one when both do. *)
Fixpoint shortest (todo k n : nat) (X : Z) (target : number) : Z :=
  match todo with
  | O => X
  | S todo' =>
      let p := 10 ^ Z.of_nat (n - k) in
      let lo := X / p * p in
      let hi := lo + p in
      match rounds_to target lo, rounds_to target hi with
      | true, true =>
          if X - lo <? hi - X then lo
          else if hi - X <? X - lo then hi
          else if Z.even (X / p) then lo else hi
      | true, false => lo
      | false, true => hi
      | false, false => shortest todo' (S k) n X target
      end
  end.

Fixpoint strip_zeros_start (s : jsstring) : jsstring :=
  match s with
  | 48%N :: t => strip_zeros_start t
  | _ => s
  end.

(** Number::toString on an integer value [X] of at least 10^21, the
    only finite values [toFixed] hands to it: exponent notation. *)
Definition toString_large (X : Z) : jsstring :=
  let n := length (digits X) in
  let v := shortest n 1 n X (of_Z X) in
  let ds := digits v in
  let exponent := JS.lit "e+" ++ digits (Z.of_nat (length ds) - 1) in
  match rev (strip_zeros_start (rev ds)) with
  | [] => ds
  | [d] => d :: exponent
  | d :: more => d :: JS.lit "." ++ more ++ exponent
  end.

(** [x.toFixed(f)].  The RangeError for [f] above 100 is left out: the
    module passes the literal 2. *)
Definition toFixed (x : number) (f : nat) : jsstring :=
  match x with
  | S754_nan => JS.lit "NaN"
  | S754_infinity false => JS.lit "Infinity"
  | S754_infinity true => JS.lit "-Infinity"
  | S754_zero _ => fixed 0 f
  | S754_finite s m e =>
      (if s then JS.lit "-" else []) ++
      (if ge_1e21 m e then toString_large (Zpos m * 2 ^ e)
       else fixed (nearest m e f) f)
  end.

End Number.

Abbreviation number := Number.number.

(** ** JavaScript values and object literals *)

Module Val.

(** The values this module builds.  An object is the list of its own
    properties in insertion order, each key once. *)
#[warnings="-register-all"]
Inductive value :=
| Undefined
| Str (s : jsstring)
| Num (n : number)
| Bool (b : bool)
| Arr (items : list value)
| Obj (props : list (string * value)).

(** ToBoolean *)
Definition truthy (v : value) : bool :=
  match v with
  | Undefined => false
  | Str s => JS.truthy s
  | Num n => Number.truthy n
  | Bool b => b
  | Arr _ | Obj _ => true
  end.

(** [a && b]: the left operand when it is falsy, the right one
    otherwise. *)
Definition and (a b : value) : value := if truthy a then b else a.

(** [a || b] *)
Definition or (a b : value) : value := if truthy a then a else b.

(** An optional string: [undefined] when absent. *)
Definition opt (o : option jsstring) : value :=
  match o with
  | Some s => Str s
  | None => Undefined
  end.

Definition opt_num (o : option number) : value :=
  match o with
  | Some n => Num n
  | None => Undefined
  end.

(** Property lookup in a property list. *)
Fixpoint lookup_prop (k : string) (props : list (string * value)) : option value :=
  match props with
  | [] => None
  | (k', v) :: rest => if String.eqb k k' then Some v else lookup_prop k rest
  end.

(** [o.k = v] on a property list: overwrite in place, or add last. *)
Fixpoint set_prop (k : string) (v : value) (props : list (string * value))
  : list (string * value) :=
  match props with
  | [] => [(k, v)]
  | (k', v') :: rest =>
      if String.eqb k k' then (k, v) :: rest else (k', v') :: set_prop k v rest
  end.

(** [o.k], [None] when [o] has no own property [k]. *)
Definition get (k : string) (o : value) : option value :=
  match o with
  | Obj props => lookup_prop k props
  | _ => None
  end.

(** [o.k = v] *)
Definition set (k : string) (v : value) (o : value) : value :=
  match o with
  | Obj props => Obj (set_prop k v props)
  | _ => o
  end.

(** The own enumerable properties a spread copies: those of an object,
    the indexed code units of a string, none of another primitive. *)
Definition own_props (v : value) : list (string * value) :=
  match v with
  | Obj props => props
  | Str s => imap (fun i c => (NilEmpty.string_of_uint (Nat.to_uint i), Str [c])) s
  | Arr items => imap (fun i x => (NilEmpty.string_of_uint (Nat.to_uint i), x)) items
  | Undefined | Num _ | Bool _ => []
  end.

(** A member of an object literal: [k: v] or [...v]. *)
Inductive member :=
| Field (k : string) (v : value)
| Spread (v : value).

Definition add_member (props : list (string * value)) (m : member)
  : list (string * value) :=
  match m with
  | Field k v => set_prop k v props
  | Spread v => fold_left (fun acc kv => set_prop kv.1 kv.2 acc) (own_props v) props
  end.

(** The object literal [{ m1, m2, ... }], members taken left to right. *)
Definition object (members : list member) : value :=
  Obj (fold_left add_member members []).

(** [o.k1.k2...] *)
Fixpoint path (ks : list string) (o : value) : option value :=
  match ks with
  | [] => Some o
  | k :: ks' =>
      match get k o with
      | Some v => path ks' v
      | None => None
      end
  end.

End Val.

Export Val(value, Undefined, Str, Num, Bool, Arr, Obj, Field, Spread, object).

(** ** Type definitions *)

(** Author information for JSON-LD Person schema *)
Module AuthorInfo.
Record t := {
  name : jsstring;
  email : option jsstring;
  twitter : option jsstring;
  url : option jsstring;
  jobTitle : option jsstring;
  bio : option jsstring;
  image : option jsstring;
  sameAs : option (list jsstring);
}.
End AuthorInfo.

(** Arguments for constructMetadata function *)
Module ConstructArgs.
Record t := {
  title : option jsstring;
  description : option jsstring;
  image : option jsstring;
  pathname : option jsstring;
  locale : option jsstring;
  noIndex : option bool;
  noFollow : option bool;
}.

(** The default argument [{}]. *)
Definition empty : t :=
  {| title := None; description := None; image := None; pathname := None;
     locale := None; noIndex := None; noFollow := None |}.
End ConstructArgs.

(** The argument of [buildArticleSchema]; [author] is one author or an
    array of them. *)
Module ArticleArgs.
Inductive authors :=
| One (a : AuthorInfo.t)
| Many (l : list AuthorInfo.t).

Record t := {
  headline : jsstring;
  datePublished : jsstring;
  dateModified : option jsstring;
  author : authors;
  image : option jsstring;
  description : option jsstring;
}.
End ArticleArgs.

Module FAQ.
Record t := { question : jsstring; answer : jsstring }.
End FAQ.

Module ProductArgs.
Record t := {
  name : jsstring;
  description : option jsstring;
  price : number;
  currency : jsstring;
  rating : option number;
  reviewCount : option number;
  image : option jsstring;
  brand : option jsstring;
}.
End ProductArgs.

Module Breadcrumb.
Record t := { name : jsstring; url : jsstring }.
End Breadcrumb.

(** Modelled from the spec: the process-wide configuration object
    [appConfig] of [config/appConfig] (site name, description, URL, logo,
    icon paths, Open Graph and Twitter defaults, robots defaults, locale),
    which is declared outside this module.  The shape is the one this
    module's accesses need, an optional member being one it reads through
    [?.] or [??]. *)
Module AppConfig.
Record social_t := { twitter : option jsstring }.

Record seo_t := {
  canonicalBase : option jsstring;
  defaultLocale : option jsstring;
  social : option social_t;
}.

Record og_t := {
  type : option jsstring;
  siteName : option jsstring;
  imageWidth : option number;
  imageHeight : option number;
  locale : option jsstring;
}.

Record pageDefaults_t := {
  robotsIndex : option bool;
  robotsFollow : option bool;
}.

Record icons_t := {
  faviconAny : option jsstring;
  icon32 : option jsstring;
  icon48 : option jsstring;
  icon192 : option jsstring;
  icon512 : option jsstring;
  appleTouch : option jsstring;
}.

Record t := {
  name : jsstring;
  description : jsstring;
  url : jsstring;
  logo : jsstring;
  lang : jsstring;
  seo : option seo_t;
  og : option og_t;
  pageDefaults : option pageDefaults_t;
  icons : option icons_t;
}.
End AppConfig.

(** What the module reads from its surroundings: the configuration, the
    process environment, and two platform operations. *)
Class Host := {
  appConfig : AppConfig.t;
  (** [getOgImagePath()], imported with [appConfig] *)
  getOgImagePath : jsstring;
  (** [process.env] *)
  process_env : gmap string jsstring;
  (** [new URL(url, base).toString()], [new URL(url)] when [base] is
      absent; [None] when the constructor throws its TypeError *)
  URL_toString : jsstring -> option jsstring -> option jsstring;
  (** [s.toUpperCase()] *)
  toUpperCase : jsstring -> jsstring;
}.

(** ** Constants *)

(** Default author for main pages *)
Definition DEFAULT_AUTHOR : AuthorInfo.t := {|
  AuthorInfo.name := JS.lit "Roman Bolshiyanov";
  AuthorInfo.email := Some (JS.lit "roman@aifa.dev");
  AuthorInfo.twitter := Some (JS.lit "@aifa_agi");
  AuthorInfo.url := Some (JS.lit "https://github.com/aifa-agi");
  AuthorInfo.jobTitle := Some (JS.lit "Founder & Lead Developer");
  AuthorInfo.bio :=
    Some (JS.lit "Full-stack developer specializing in AI-powered SaaS applications");
  AuthorInfo.image := None;
  AuthorInfo.sameAs :=
    Some [JS.lit "https://github.com/aifa-agi"; JS.lit "https://twitter.com/aifa_agi"];
|}.

(** Default creator organization *)
Definition DEFAULT_CREATOR : jsstring := JS.lit "aifa.dev".

(** Maximum recommended description length for SEO *)
Definition MAX_DESCRIPTION_LENGTH : Z := 160.

(** ** Helper functions *)

(** The [while (s.includes("//")) s = s.replace("//", "/")] loop.  Each
    turn shortens [s], so [length s] turns are enough: [collapse_exits]
    shows that the loop then leaves through its condition. *)
Fixpoint collapse (fuel : nat) (s : jsstring) : jsstring :=
  if JS.includes s (JS.lit "//") then
    match fuel with
    | O => s
    | S fuel' => collapse fuel' (JS.replace s (JS.lit "//") (JS.lit "/"))
    end
  else s.

(** Normalize pathname to valid URL path *)
Definition normalizePath (p : option jsstring) : jsstring :=
  if negb (Val.truthy (Val.opt p)) then JS.lit "/"
  else
    let s := JS.trim (default [] p) in
    let s := if negb (JS.startsWith s (JS.lit "/")) then JS.lit "/" ++ s else s in
    collapse (length s) s.

(** Truncate description to SEO-friendly length *)
Definition truncateDescription (desc : jsstring) (maxLength : option Z) : jsstring :=
  let maxLength := default MAX_DESCRIPTION_LENGTH maxLength in
  if (Z.of_nat (length desc) <=? maxLength)%Z then desc
  else JS.substring desc 0 (maxLength - 3) ++ JS.lit "...".

(** Build Person schema from AuthorInfo *)
Definition buildPersonSchema (author : AuthorInfo.t) : value :=
  let person :=
    object [Field "@type" (Str (JS.lit "Person"));
            Field "name" (Str (AuthorInfo.name author))] in
  let assign_if_set (k : string) (v : option jsstring) (person : value) :=
    if Val.truthy (Val.opt v) then Val.set k (Val.opt v) person else person in
  let person := assign_if_set "url" (AuthorInfo.url author) person in
  let person := assign_if_set "email" (AuthorInfo.email author) person in
  let person := assign_if_set "image" (AuthorInfo.image author) person in
  let person := assign_if_set "description" (AuthorInfo.bio author) person in
  let person := assign_if_set "jobTitle" (AuthorInfo.jobTitle author) person in
  let sameAsUrls : list jsstring := [] in
  let sameAsUrls :=
    match AuthorInfo.sameAs author with
    | Some l => sameAsUrls ++ l
    | None => sameAsUrls
    end in
  let sameAsUrls :=
    match AuthorInfo.twitter author with
    | Some twitter =>
        if JS.truthy twitter && negb (JS.startsWith twitter (JS.lit "http")) then
          let handle := JS.replace twitter (JS.lit "@") (JS.lit "") in
          sameAsUrls ++ [JS.lit "https://twitter.com/" ++ handle]
        else sameAsUrls
    | None => sameAsUrls
    end in
  if (0 <? length sameAsUrls)%nat
  then Val.set "sameAs" (Arr (Str <$> sameAsUrls)) person
  else person.

(** Build FAQ structured data for rich snippets *)
Definition buildFAQSchema (faqs : list FAQ.t) : value :=
  object [
    Field "@context" (Str (JS.lit "https://schema.org"));
    Field "@type" (Str (JS.lit "FAQPage"));
    Field "mainEntity" (Arr (
      (fun faq => object [
         Field "@type" (Str (JS.lit "Question"));
         Field "name" (Str (FAQ.question faq));
         Field "acceptedAnswer" (object [
           Field "@type" (Str (JS.lit "Answer"));
           Field "text" (Str (FAQ.answer faq))])]) <$> faqs))].

(** Build Product structured data *)
Definition buildProductSchema (args : ProductArgs.t) : value :=
  let name := ProductArgs.name args in
  let description := Val.opt (ProductArgs.description args) in
  let price := ProductArgs.price args in
  let currency := ProductArgs.currency args in
  let rating := Val.opt_num (ProductArgs.rating args) in
  let reviewCount := Val.opt_num (ProductArgs.reviewCount args) in
  let image := Val.opt (ProductArgs.image args) in
  let brand := Val.opt (ProductArgs.brand args) in
  object [
    Field "@context" (Str (JS.lit "https://schema.org"));
    Field "@type" (Str (JS.lit "Product"));
    Field "name" (Str name);
    Spread (Val.and description (object [Field "description" description]));
    Spread (Val.and image (object [Field "image" image]));
    Spread (Val.and brand (object [
      Field "brand" (object [Field "@type" (Str (JS.lit "Brand")); Field "name" brand])]));
    Field "offers" (object [
      Field "@type" (Str (JS.lit "Offer"));
      Field "price" (Str (Number.toFixed price 2));
      Field "priceCurrency" (Str currency);
      Field "availability" (Str (JS.lit "https://schema.org/InStock"))]);
    Spread (Val.and (Val.and rating reviewCount) (object [
      Field "aggregateRating" (object [
        Field "@type" (Str (JS.lit "AggregateRating"));
        Field "ratingValue" rating;
        Field "reviewCount" reviewCount])]))].

(** [l.map((x, index) => f(index, x))] for a callback that may throw: the
    first exception ends the traversal. *)
Fixpoint map_indexed {A B} (f : nat -> A -> option B) (index : nat) (l : list A)
  : option (list B) :=
  match l with
  | [] => Some []
  | x :: rest =>
      y ← f index x;
      ys ← map_indexed f (S index) rest;
      Some (y :: ys)
  end.

(** ** The functions that read the configuration or build URLs *)

Section Module.
Context `{host : Host}.

(** The module-level [verification] record, filled once from the two
    environment variables when the module loads. *)
Definition verification : value :=
  let verification := object [] in
  let googleVerification :=
    JS.trim <$> process_env !! "NEXT_PUBLIC_GOOGLE_VERIFICATION" in
  let yandexVerification :=
    JS.trim <$> process_env !! "NEXT_PUBLIC_YANDEX_VERIFICATION" in
  let verification :=
    if Val.truthy (Val.opt googleVerification)
       && (0 <? length (default [] googleVerification))%nat
    then Val.set "google" (Val.opt googleVerification) verification
    else verification in
  let verification :=
    if Val.truthy (Val.opt yandexVerification)
       && (0 <? length (default [] yandexVerification))%nat
    then Val.set "yandex" (Val.opt yandexVerification) verification
    else verification in
  verification.

(** Cached icons array to avoid recreation on every call *)
Definition CACHED_ICONS : value :=
  let icons : list value := [] in
  let configured (path : option jsstring) : bool :=
    Val.truthy (Val.opt path) && (0 <? length (default [] path))%nat in
  let icon (url : option jsstring) (rel sizes type : string) : value :=
    object [Field "url" (Val.opt url); Field "rel" (Str (JS.lit rel));
            Field "sizes" (Str (JS.lit sizes)); Field "type" (Str (JS.lit type))] in
  let icon_png (url : option jsstring) (sizes : string) : value :=
    object [Field "url" (Val.opt url); Field "type" (Str (JS.lit "image/png"));
            Field "sizes" (Str (JS.lit sizes)); Field "rel" (Str (JS.lit "icon"))] in
  let faviconAny := AppConfig.icons appConfig ≫= AppConfig.faviconAny in
  let icons :=
    if configured faviconAny
    then icons ++ [icon faviconAny "icon" "any" "image/x-icon"] else icons in
  let icon32 := AppConfig.icons appConfig ≫= AppConfig.icon32 in
  let icons := if configured icon32 then icons ++ [icon_png icon32 "32x32"] else icons in
  let icon48 := AppConfig.icons appConfig ≫= AppConfig.icon48 in
  let icons := if configured icon48 then icons ++ [icon_png icon48 "48x48"] else icons in
  let icon192 := AppConfig.icons appConfig ≫= AppConfig.icon192 in
  let icons := if configured icon192 then icons ++ [icon_png icon192 "192x192"] else icons in
  let icon512 := AppConfig.icons appConfig ≫= AppConfig.icon512 in
  let icons := if configured icon512 then icons ++ [icon_png icon512 "512x512"] else icons in
  let appleTouch := AppConfig.icons appConfig ≫= AppConfig.appleTouch in
  let icons :=
    if configured appleTouch
    then icons ++ [icon appleTouch "apple-touch-icon" "180x180" "image/png"] else icons in
  Arr icons.

(** Construct complete metadata object for Next.js pages.  [None] is the
    TypeError of a [URL] constructor; [metadataBase], a [URL] object in the
    source, is held as its serialization. *)
Definition constructMetadata (args : ConstructArgs.t) : option value :=
  let title := default (AppConfig.name appConfig) (ConstructArgs.title args) in
  let description :=
    default (AppConfig.description appConfig) (ConstructArgs.description args) in
  let image := default getOgImagePath (ConstructArgs.image args) in
  let pathname := ConstructArgs.pathname args in
  let locale :=
    default (default (AppConfig.lang appConfig)
                     (AppConfig.seo appConfig ≫= AppConfig.defaultLocale))
            (ConstructArgs.locale args) in
  let noIndex := default false (ConstructArgs.noIndex args) in
  let noFollow := default false (ConstructArgs.noFollow args) in
  let base :=
    default (AppConfig.url appConfig)
            (AppConfig.seo appConfig ≫= AppConfig.canonicalBase) in
  let path := normalizePath pathname in
  canonical ← URL_toString path (Some base);
  let validDescription := truncateDescription description None in
  metadataBase ← URL_toString (AppConfig.url appConfig) None;
  Some (object [
    Field "title" (Str title);
    Field "description" (Str validDescription);
    Field "metadataBase" (Str metadataBase);
    Field "alternates" (object [Field "canonical" (Str canonical)]);
    Field "manifest" (Str (JS.lit "/manifest.webmanifest"));
    Field "icons" CACHED_ICONS;
    Field "authors" (Arr [
      object [Field "name" (Str (AuthorInfo.name DEFAULT_AUTHOR));
              Field "url" (Val.opt (AuthorInfo.url DEFAULT_AUTHOR))]]);
    Field "creator" (Str DEFAULT_CREATOR);
    Field "publisher" (Str DEFAULT_CREATOR);
    Field "openGraph" (object [
      Field "type"
        (Str (default (JS.lit "website") (AppConfig.og appConfig ≫= AppConfig.type)));
      Field "title" (Str title);
      Field "description" (Str validDescription);
      Field "url" (Str canonical);
      Field "siteName"
        (Str (default (AppConfig.name appConfig)
                      (AppConfig.og appConfig ≫= AppConfig.siteName)));
      Field "images" (Arr [
        object [
          Field "url" (Str image);
          Field "width"
            (Num (default (Number.of_Z 1200)
                          (AppConfig.og appConfig ≫= AppConfig.imageWidth)));
          Field "height"
            (Num (default (Number.of_Z 630)
                          (AppConfig.og appConfig ≫= AppConfig.imageHeight)));
          Field "alt" (Str validDescription)]]);
      Field "locale"
        (Str (default (locale ++ JS.lit "_" ++ toUpperCase locale)
                      (AppConfig.og appConfig ≫= AppConfig.locale)))]);
    Field "twitter" (object [
      Field "card" (Str (JS.lit "summary_large_image"));
      Field "title" (Str title);
      Field "description" (Str validDescription);
      Field "images" (Arr [Str image]);
      Field "creator"
        (Val.opt ((AppConfig.seo appConfig ≫= AppConfig.social) ≫= AppConfig.twitter))]);
    Field "robots" (object [
      Field "index"
        (Bool (negb noIndex
               && default true (AppConfig.pageDefaults appConfig ≫= AppConfig.robotsIndex)));
      Field "follow"
        (Bool (negb noFollow
               && default true (AppConfig.pageDefaults appConfig ≫= AppConfig.robotsFollow)))]);
    Spread (Val.and (Bool (0 <? length (Val.own_props verification))%nat)
                    (object [Field "verification" verification]))]).

(** Build Article structured data with author information *)
Definition buildArticleSchema (args : ArticleArgs.t) : option value :=
  let headline := ArticleArgs.headline args in
  let datePublished := ArticleArgs.datePublished args in
  let dateModified := Val.opt (ArticleArgs.dateModified args) in
  let image := Val.opt (ArticleArgs.image args) in
  let description := Val.opt (ArticleArgs.description args) in
  let authorSchema :=
    match ArticleArgs.author args with
    | ArticleArgs.Many author => Arr (buildPersonSchema <$> author)
    | ArticleArgs.One author => buildPersonSchema author
    end in
  logo ← URL_toString (AppConfig.logo appConfig) (Some (AppConfig.url appConfig));
  Some (object [
    Field "@context" (Str (JS.lit "https://schema.org"));
    Field "@type" (Str (JS.lit "Article"));
    Field "headline" (Str headline);
    Field "datePublished" (Str datePublished);
    Field "dateModified" (Val.or dateModified (Str datePublished));
    Field "author" authorSchema;
    Spread (Val.and description (object [Field "description" description]));
    Field "publisher" (object [
      Field "@type" (Str (JS.lit "Organization"));
      Field "name" (Str DEFAULT_CREATOR);
      Field "logo" (object [
        Field "@type" (Str (JS.lit "ImageObject"));
        Field "url" (Str logo)])]);
    Spread (Val.and image (object [
      Field "image" (object [
        Field "@type" (Str (JS.lit "ImageObject"));
        Field "url" image])]))]).

(** Build BreadcrumbList structured data *)
Definition buildBreadcrumbSchema (breadcrumbs : list Breadcrumb.t) : option value :=
  itemListElement ←
    map_indexed (fun index item =>
      resolved ← URL_toString (Breadcrumb.url item) (Some (AppConfig.url appConfig));
      Some (object [
        Field "@type" (Str (JS.lit "ListItem"));
        Field "position" (Num (Number.of_Z (Z.of_nat index + 1)));
        Field "name" (Str (Breadcrumb.name item));
        Field "item" (Str resolved)]))
      0%nat breadcrumbs;
  Some (object [
    Field "@context" (Str (JS.lit "https://schema.org"));
    Field "@type" (Str (JS.lit "BreadcrumbList"));
    Field "itemListElement" (Arr itemListElement)]).

End Module.

(** ** A host for the examples *)

Module Sample.

Definition config : AppConfig.t := {|
  AppConfig.name := JS.lit "AIFA";
  AppConfig.description := JS.lit "AI-powered SaaS starter";
  AppConfig.url := JS.lit "https://aifa.dev";
  AppConfig.logo := JS.lit "/logo.png";
  AppConfig.lang := JS.lit "en";
  AppConfig.seo := None;
  AppConfig.og := None;
  AppConfig.pageDefaults :=
    Some {| AppConfig.robotsIndex := Some true; AppConfig.robotsFollow := None |};
  AppConfig.icons := None;
|}.

(** The part of URL resolution the examples use: a rooted path resolves
    against an origin by concatenation, an origin alone gains its root
    path, anything else is refused. *)
Definition resolve (url : jsstring) (base : option jsstring) : option jsstring :=
  match base with
  | Some origin =>
      if JS.startsWith url (JS.lit "/") && negb (JS.startsWith url (JS.lit "//"))
      then Some (origin ++ url) else None
  | None =>
      if JS.startsWith url (JS.lit "https://") then Some (url ++ JS.lit "/") else None
  end.

Definition env : gmap string jsstring :=
  {[ "NEXT_PUBLIC_GOOGLE_VERIFICATION" := JS.lit " g-token ";
     "NEXT_PUBLIC_YANDEX_VERIFICATION" := JS.lit "   " ]}.

(** Upper case of the ASCII letters, all the examples need. *)
Definition upper (s : jsstring) : jsstring :=
  (fun c => if (97 <=? c)%N && (c <=? 122)%N then (c - 32)%N else c) <$> s.

Definition host : Host := {|
  appConfig := config;
  getOgImagePath := JS.lit "/og.png";
  process_env := env;
  URL_toString := resolve;
  toUpperCase := upper;
|}.

End Sample.

(** ** The vocabulary of the statements *)

(** [s] opens with a slash that no second slash follows. *)
Definition one_leading_slash (s : jsstring) : Prop :=
  JS.startsWith s (JS.lit "/") = true /\ JS.startsWith s (JS.lit "//") = false.

(** [s] ends with [suffix]. *)
Definition ends_with (s suffix : jsstring) : Prop := exists front, s = front ++ suffix.

(** An optional string that is present and not empty. *)
Definition nonempty (o : option jsstring) : option jsstring :=
  match o with
  | Some (c :: t) => Some (c :: t)
  | Some [] | None => None
  end.

(** The profile URL made from a handle: the handle's first ["@"] goes, the
    rest follows [https://twitter.com/]. *)
Definition handle_url (handle : jsstring) : jsstring :=
  JS.lit "https://twitter.com/" ++ JS.replace handle (JS.lit "@") (JS.lit "").

(** The handle-derived URLs of an author: one, when the handle is given,
    not empty, and does not open with ["http"]; none otherwise. *)
Definition derived_urls (author : AuthorInfo.t) : list jsstring :=
  match nonempty (AuthorInfo.twitter author) with
  | Some handle =>
      if JS.startsWith handle (JS.lit "http") then [] else [handle_url handle]
  | None => []
  end.

(** The record's own profile URLs, then the handle-derived one. *)
Definition profile_urls (author : AuthorInfo.t) : list jsstring :=
  default [] (AuthorInfo.sameAs author) ++ derived_urls author.

(** The properties after [if (v) person.k = v]. *)
Definition assigned (k : string) (v : option jsstring) (props : list (string * value))
  : list (string * value) :=
  match nonempty v with
  | Some s => Val.set_prop k (Str s) props
  | None => props
  end.

(** A decimal digit. *)
Definition is_digit (c : N) : Prop := (48 <= c <= 57)%N.

(** A sign, at least one digit, the point, and exactly two digits. *)
Definition two_decimals (s : jsstring) : Prop :=
  exists sign whole d1 d2,
    s = sign ++ whole ++ JS.lit "." ++ [d1; d2] /\
    (sign = [] \/ sign = JS.lit "-") /\
    whole <> [] /\ Forall is_digit whole /\ is_digit d1 /\ is_digit d2.

(** A finite Number of magnitude below 10^21. *)
Definition finite_below_1e21 (x : number) : Prop :=
  match x with
  | S754_zero _ => True
  | S754_finite _ m e => Number.ge_1e21 m e = false
  | S754_infinity _ | S754_nan => False
  end.

(** The two optional numbers, when both are given and both truthy. *)
Definition rated (args : ProductArgs.t) : option (number * number) :=
  match ProductArgs.rating args, ProductArgs.reviewCount args with
  | Some rating, Some reviewCount =>
      if Number.truthy rating && Number.truthy reviewCount
      then Some (rating, reviewCount) else None
  | _, _ => None
  end.

Section HostVocabulary.
Context `{host : Host}.

(** The two [URL] constructions of [constructMetadata] go through. *)
Definition URLs_resolve (args : ConstructArgs.t) : Prop :=
  is_Some (URL_toString (normalizePath (ConstructArgs.pathname args))
             (Some (default (AppConfig.url appConfig)
                            (AppConfig.seo appConfig ≫= AppConfig.canonicalBase)))) /\
  is_Some (URL_toString (AppConfig.url appConfig) None).

(** The verification token an environment variable supplies: its value
    trimmed, when something is left. *)
Definition token (variable : string) : option jsstring :=
  match JS.trim <$> process_env !! variable with
  | Some (c :: t) => Some (c :: t)
  | Some [] | None => None
  end.

End HostVocabulary.

(** The non-empty segments of a path, in order: the code units between
    slashes. *)
Fixpoint segments_from (current : jsstring) (s : jsstring) : list jsstring :=
  match s with
  | [] => match current with [] => [] | _ :: _ => [current] end
  | c :: t =>
      if (c =? 47)%N
      then match current with
           | [] => segments_from [] t
           | _ :: _ => current :: segments_from [] t
           end
      else segments_from (current ++ [c]) t
  end.

Definition segments (s : jsstring) : list jsstring := segments_from [] s.

Section IconVocabulary.
Context `{host : Host}.

(** The icon paths the configuration sets to a non-empty string, in the
    order favicon, 32, 48, 192, 512, Apple touch. *)
Definition configured_icon_paths : list jsstring :=
  omap nonempty [
    AppConfig.icons appConfig ≫= AppConfig.faviconAny;
    AppConfig.icons appConfig ≫= AppConfig.icon32;
    AppConfig.icons appConfig ≫= AppConfig.icon48;
    AppConfig.icons appConfig ≫= AppConfig.icon192;
    AppConfig.icons appConfig ≫= AppConfig.icon512;
    AppConfig.icons appConfig ≫= AppConfig.appleTouch].

End IconVocabulary.

(** Reading decimal digits, most significant first, onto the number read
    so far; [None] at the first code unit outside ["0"] to ["9"]. *)
Fixpoint read_digits_from (sofar : Z) (s : jsstring) : option Z :=
  match s with
  | [] => Some sofar
  | c :: t =>
      if (48 <=? c)%N && (c <=? 57)%N
      then read_digits_from (10 * sofar + Z.of_N (c - 48)) t
      else None
  end.

(** The number a non-empty string of decimal digits denotes; [None] for
    the empty string and when some code unit is no digit. *)
Definition read_digits (s : jsstring) : option Z :=
  match s with
  | [] => None
  | _ :: _ => read_digits_from 0 s
  end.

(** [nearest_hundredth x n]: [n] is the integer nearest to 100 times the
    magnitude of the finite Number [x], the upper one of two equally
    near. *)
Definition nearest_hundredth (x : number) (n : Z) : Prop :=
  match x with
  | S754_zero _ => n = 0%Z
  | S754_finite _ m (Zneg p) =>
      (2 ^ Zpos p * (2 * n - 1) <= 200 * Zpos m < 2 ^ Zpos p * (2 * n + 1))%Z
  | S754_finite _ m e => n = (100 * (Zpos m * 2 ^ e))%Z
  | S754_infinity _ | S754_nan => False
  end.

(** [integer_value x k]: the magnitude of the finite Number [x] is the
    integer [k]. *)
Definition integer_value (x : number) (k : Z) : Prop :=
  match x with
  | S754_zero _ => k = 0%Z
  | S754_finite _ m (Zneg p) => Zpos m = (k * 2 ^ Zpos p)%Z
  | S754_finite _ m e => k = (Zpos m * 2 ^ e)%Z
  | S754_infinity _ | S754_nan => False
  end.

(** The sign [toFixed] prints: a minus for a negative finite Number that
    is not a zero. *)
Definition printed_sign (x : number) : jsstring :=
  match x with
  | S754_finite true _ _ => JS.lit "-"
  | _ => []
  end.

(** A JSON-LD object of the schema.org vocabulary with the given type. *)
Definition schema_header (type : string) (v : value) : Prop :=
  Val.get "@context" v = Some (Str (JS.lit "https://schema.org")) /\
  Val.get "@type" v = Some (Str (JS.lit type)).

(** ** Concrete inputs *)

Module Inputs.

Definition long_description : jsstring := repeat 97%N 200.

Definition long_args : ConstructArgs.t := {|
  ConstructArgs.title := None;
  ConstructArgs.description := Some long_description;
  ConstructArgs.image := None;
  ConstructArgs.pathname := Some (JS.lit "blog//post");
  ConstructArgs.locale := None;
  ConstructArgs.noIndex := Some true;
  ConstructArgs.noFollow := None;
|}.

Definition home_blog : list Breadcrumb.t := [
  {| Breadcrumb.name := JS.lit "Home"; Breadcrumb.url := JS.lit "/" |};
  {| Breadcrumb.name := JS.lit "Blog"; Breadcrumb.url := JS.lit "/blog" |}].

Definition article : ArticleArgs.t := {|
  ArticleArgs.headline := JS.lit "Hello";
  ArticleArgs.datePublished := JS.lit "2024-01-01";
  ArticleArgs.dateModified := Some [];
  ArticleArgs.author := ArticleArgs.One DEFAULT_AUTHOR;
  ArticleArgs.image := None;
  ArticleArgs.description := None;
|}.

Definition anonymous : AuthorInfo.t := {|
  AuthorInfo.name := JS.lit "A";
  AuthorInfo.email := None;
  AuthorInfo.twitter := None;
  AuthorInfo.url := None;
  AuthorInfo.jobTitle := None;
  AuthorInfo.bio := None;
  AuthorInfo.image := None;
  AuthorInfo.sameAs := None;
|}.

(** An author whose [url] and [twitter] are present but empty. *)
Definition blank_author : AuthorInfo.t := {|
  AuthorInfo.name := JS.lit "A";
  AuthorInfo.email := None;
  AuthorInfo.twitter := Some [];
  AuthorInfo.url := Some [];
  AuthorInfo.jobTitle := None;
  AuthorInfo.bio := None;
  AuthorInfo.image := None;
  AuthorInfo.sameAs := None;
|}.

Definition product (price : number) (rating reviewCount : option number)
  : ProductArgs.t := {|
  ProductArgs.name := JS.lit "Widget";
  ProductArgs.description := None;
  ProductArgs.price := price;
  ProductArgs.currency := JS.lit "USD";
  ProductArgs.rating := rating;
  ProductArgs.reviewCount := reviewCount;
  ProductArgs.image := None;
  ProductArgs.brand := None;
|}.

(** Price 9, rating 4 from 12 reviews. *)
Definition rated_product : ProductArgs.t :=
  product (Number.of_Z 9) (Some (Number.of_Z 4)) (Some (Number.of_Z 12)).

(** Rating 0 from 5 reviews: both numbers are given. *)
Definition zero_rated_product : ProductArgs.t :=
  product (Number.of_Z 9) (Some (Number.of_Z 0)) (Some (Number.of_Z 5)).

(** A price that is not a number. *)
Definition nan_priced_product : ProductArgs.t := product S754_nan None None.

End Inputs.

(** ** More hosts and inputs *)

Module Cases.

(** A configuration with icons, one of them set to the empty string, and
    a fixed Open Graph locale, for a given site URL. *)
Definition config_at (url : jsstring) : AppConfig.t := {|
  AppConfig.name := JS.lit "AIFA";
  AppConfig.description := JS.lit "AI-powered SaaS starter";
  AppConfig.url := url;
  AppConfig.logo := JS.lit "/logo.png";
  AppConfig.lang := JS.lit "en";
  AppConfig.seo := None;
  AppConfig.og := Some {|
    AppConfig.type := None;
    AppConfig.siteName := None;
    AppConfig.imageWidth := None;
    AppConfig.imageHeight := None;
    AppConfig.locale := Some (JS.lit "en_US") |};
  AppConfig.pageDefaults := None;
  AppConfig.icons := Some {|
    AppConfig.faviconAny := Some (JS.lit "/favicon.ico");
    AppConfig.icon32 := Some [];
    AppConfig.icon48 := None;
    AppConfig.icon192 := None;
    AppConfig.icon512 := None;
    AppConfig.appleTouch := Some (JS.lit "/apple-touch-icon.png") |};
|}.

Definition config : AppConfig.t := config_at (JS.lit "https://aifa.dev").

(** URL resolution as in [Sample], refusing a base that is no URL. *)
Definition resolve (url : jsstring) (base : option jsstring) : option jsstring :=
  match base with
  | Some origin =>
      if JS.startsWith origin (JS.lit "https://") then Sample.resolve url base else None
  | None => Sample.resolve url None
  end.

Definition host_at (url : jsstring) : Host := {|
  appConfig := config_at url;
  getOgImagePath := JS.lit "/og.png";
  process_env := ∅;
  URL_toString := resolve;
  toUpperCase := Sample.upper;
|}.

Definition host : Host := host_at (JS.lit "https://aifa.dev").

(** A host whose configured site URL is no URL: every construction
    against it throws. *)
Definition broken_host : Host := host_at (JS.lit "not a url").

Definition french_args : ConstructArgs.t := {|
  ConstructArgs.title := Some (JS.lit "Accueil");
  ConstructArgs.description := None;
  ConstructArgs.image := None;
  ConstructArgs.pathname := None;
  ConstructArgs.locale := Some (JS.lit "fr");
  ConstructArgs.noIndex := None;
  ConstructArgs.noFollow := None;
|}.

(** The second url has a scheme and no host. *)
Definition broken_crumbs : list Breadcrumb.t := [
  {| Breadcrumb.name := JS.lit "Home"; Breadcrumb.url := JS.lit "/" |};
  {| Breadcrumb.name := JS.lit "Bad"; Breadcrumb.url := JS.lit "http://" |}].

Definition author (twitter : jsstring) : AuthorInfo.t := {|
  AuthorInfo.name := JS.lit "A";
  AuthorInfo.email := None;
  AuthorInfo.twitter := Some twitter;
  AuthorInfo.url := None;
  AuthorInfo.jobTitle := None;
  AuthorInfo.bio := None;
  AuthorInfo.image := None;
  AuthorInfo.sameAs := None;
|}.

(** 1.005, -0.001 and 9 as binary64 values. *)
Definition n1_005 : number := S754_finite false 4526117625507348 (-52).
Definition nine : number := S754_finite false 5066549580791808 (-49).

End Cases.

(** * Properties *)

(** ** Strings *)

Section StringFacts.
Implicit Types s p r t : jsstring.

Lemma is_prefix_length p s : JS.is_prefix p s = true -> (length p <= length s)%nat.
Proof.
  revert s; induction p as [|c p IH]; intros [|d s]; simpl; try lia; try discriminate.
  intros [_ H]%andb_prop. apply IH in H. lia.
Qed.

(** A replacement that finds its pattern trades the pattern's length for
    the replacement's. *)
Lemma length_replace s p r :
  JS.includes s p = true ->
  (length (JS.replace s p r) + length p = length s + length r)%nat.
Proof.
  induction s as [|c s IH]; simpl; intros H.
  - rewrite orb_false_r in H. rewrite H.
    apply is_prefix_length in H as Hl. simpl in Hl.
    rewrite length_app, length_drop. simpl. lia.
  - destruct (JS.is_prefix p (c :: s)) eqn:Hp.
    + apply is_prefix_length in Hp as Hl. simpl in Hl.
      rewrite length_app, length_drop. simpl. lia.
    + simpl in H. apply IH in H. simpl. lia.
Qed.

(** Replacing ["//"] by ["/"] keeps a leading slash. *)
Lemma replace_keeps_slash s :
  JS.startsWith s (JS.lit "/") = true ->
  JS.startsWith (JS.replace s (JS.lit "//") (JS.lit "/")) (JS.lit "/") = true.
Proof.
  destruct s as [|c s]; [discriminate|].
  unfold JS.startsWith.
  change (JS.lit "//") with [47%N; 47%N]. change (JS.lit "/") with [47%N].
  cbn [JS.is_prefix]. rewrite andb_true_r. intros <-%N.eqb_eq.
  cbn [JS.replace].
  destruct (JS.is_prefix [47%N; 47%N] (47%N :: s)); reflexivity.
Qed.

(** The loop of [normalizePath] leaves through its condition. *)
Lemma collapse_exits fuel s :
  (length s <= fuel)%nat -> JS.includes (collapse fuel s) (JS.lit "//") = false.
Proof.
  revert s; induction fuel as [|fuel IH]; intros s Hlen.
  - destruct s; [reflexivity | simpl in Hlen; lia].
  - cbn [collapse]. destruct (JS.includes s (JS.lit "//")) eqn:Hin; [|exact Hin].
    apply IH. pose proof (length_replace s _ (JS.lit "/") Hin) as Hl.
    change (length (JS.lit "//")) with 2%nat in Hl.
    change (length (JS.lit "/")) with 1%nat in Hl. lia.
Qed.

Lemma collapse_keeps_slash fuel s :
  JS.startsWith s (JS.lit "/") = true ->
  JS.startsWith (collapse fuel s) (JS.lit "/") = true.
Proof.
  revert s; induction fuel as [|fuel IH]; intros s H; cbn [collapse].
  - destruct (JS.includes s _); exact H.
  - destruct (JS.includes s _); [|exact H].
    apply IH, replace_keeps_slash, H.
Qed.

(** A string free of ["//"] does not open with it. *)
Lemma no_dslash_start s :
  JS.includes s (JS.lit "//") = false -> JS.startsWith s (JS.lit "//") = false.
Proof.
  unfold JS.startsWith. destruct s; simpl; intros H.
  - reflexivity.
  - apply orb_false_iff in H as [H _]. exact H.
Qed.

Lemma substring_prefix s (n : Z) :
  (0 <= n <= Z.of_nat (length s))%Z -> JS.substring s 0 n = take (Z.to_nat n) s.
Proof.
  intros H. unfold JS.substring.
  rewrite (Z.max_l 0 0), (Z.min_l 0), (Z.max_l n 0), (Z.min_l n) by lia.
  rewrite (Z.min_l 0 n), (Z.max_r 0 n) by lia.
  rewrite Z.sub_0_r. reflexivity.
Qed.

End StringFacts.

(** ** normalizePath *)

Lemma normalizePath_shape (p : option jsstring) :
  one_leading_slash (normalizePath p) /\
  JS.includes (normalizePath p) (JS.lit "//") = false.
Proof.
  assert (Hgoal : JS.startsWith (normalizePath p) (JS.lit "/") = true /\
                  JS.includes (normalizePath p) (JS.lit "//") = false).
  { unfold normalizePath.
    destruct (negb (Val.truthy (Val.opt p))); [split; reflexivity|].
    set (s := JS.trim (default [] p)).
    split.
    - apply collapse_keeps_slash.
      destruct (JS.startsWith s (JS.lit "/")) eqn:Hs; simpl; [exact Hs | reflexivity].
    - apply collapse_exits. lia. }
  destruct Hgoal as [H1 H2]. repeat split; auto using no_dslash_start.
Qed.

(** C3: an input without a leading slash comes back with exactly one
    slash in front; no result holds two slashes in a row; an absent input
    gives ["/"]. *)
Theorem normalizePath_spec (p : option jsstring) :
  (forall s, p = Some s -> JS.startsWith s (JS.lit "/") = false ->
             one_leading_slash (normalizePath p)) /\
  JS.includes (normalizePath p) (JS.lit "//") = false /\
  (p = None -> normalizePath p = JS.lit "/").
Proof.
  destruct (normalizePath_shape p) as [H1 H2].
  split; [auto | split; [exact H2|]].
  intros ->. reflexivity.
Qed.

Lemma normalizePath_spec_witness :
  JS.startsWith (JS.lit " blog//post///1 ") (JS.lit "/") = false /\
  one_leading_slash (normalizePath (Some (JS.lit " blog//post///1 "))) /\
  normalizePath (Some (JS.lit " blog//post///1 ")) = JS.lit "/blog/post/1" /\
  normalizePath None = JS.lit "/".
Proof.
  split; [reflexivity|].
  split; [|split].
  - apply (proj1 (normalizePath_spec (Some (JS.lit " blog//post///1 ")))
             (JS.lit " blog//post///1 ")); reflexivity.
  - vm_compute. reflexivity.
  - apply (proj2 (proj2 (normalizePath_spec None))). reflexivity.
Defined.

(** ** truncateDescription *)

Lemma truncateDescription_short (d : jsstring) :
  (length d <= 160)%nat -> truncateDescription d None = d.
Proof.
  intros H. unfold truncateDescription, MAX_DESCRIPTION_LENGTH. cbn [default].
  destruct (Z.leb_spec (Z.of_nat (length d)) 160); [reflexivity | lia].
Qed.

Lemma truncateDescription_long (d : jsstring) :
  (160 < length d)%nat -> truncateDescription d None = take 157 d ++ JS.lit "...".
Proof.
  intros H. unfold truncateDescription, MAX_DESCRIPTION_LENGTH. cbn [default].
  destruct (Z.leb_spec (Z.of_nat (length d)) 160); [lia|].
  rewrite substring_prefix by lia. reflexivity.
Qed.

(** ** constructMetadata *)

Section ConstructMetadata.
Context `{host : Host}.

(** [constructMetadata] returns exactly when its [URL] constructions do
    not throw. *)
Lemma constructMetadata_returns (args : ConstructArgs.t) :
  URLs_resolve args <-> is_Some (constructMetadata args).
Proof.
  unfold URLs_resolve, constructMetadata. cbn zeta.
  destruct (URL_toString (normalizePath _) _) as [c|]; cbn [mbind option_bind].
  - destruct (URL_toString (AppConfig.url appConfig) None) as [b|];
      cbn [mbind option_bind].
    + split; eauto.
    + split; [intros [_ []] | intros []]; discriminate.
  - split; [intros [[] _] | intros []]; discriminate.
Qed.

Ltac run_constructMetadata H :=
  let c := fresh "canonical" in
  let b := fresh "metadataBase" in
  let Hc := fresh in
  let Hb := fresh in
  destruct H as [[c Hc] [b Hb]];
  unfold constructMetadata; cbn zeta;
  rewrite Hc; cbn [mbind option_bind];
  rewrite Hb; cbn [mbind option_bind].

(** C2: a description of more than 160 code units comes back as its first
    157 followed by ["..."], 160 in all; a shorter one comes back as it
    is. *)
Theorem constructMetadata_description (args : ConstructArgs.t) (d : jsstring) :
  ConstructArgs.description args = Some d ->
  URLs_resolve args ->
  exists m out,
    constructMetadata args = Some m /\
    Val.get "description" m = Some (Str out) /\
    ((160 < length d)%nat ->
       out = take 157 d ++ JS.lit "..." /\ (length out <= 160)%nat /\
       ends_with out (JS.lit "...")) /\
    ((length d <= 160)%nat -> out = d).
Proof.
  intros Hd Hres. run_constructMetadata Hres. rewrite Hd. cbn [default].
  eexists _, (truncateDescription d None).
  split; [reflexivity|].
  split; [destruct (0 <? length (Val.own_props verification))%nat; reflexivity|].
  split.
  - intros Hlong. rewrite truncateDescription_long by exact Hlong.
    split; [reflexivity|]. split.
    + rewrite length_app, length_take. change (length (JS.lit "...")) with 3%nat. lia.
    + eexists. reflexivity.
  - apply truncateDescription_short.
Qed.

(** C8: [robots.index] is true exactly when [noIndex] is not true and the
    configured default is not false; the same for [robots.follow]. *)
Theorem constructMetadata_robots (args : ConstructArgs.t) :
  URLs_resolve args ->
  exists m index follow,
    constructMetadata args = Some m /\
    Val.path ["robots"; "index"] m = Some (Bool index) /\
    Val.path ["robots"; "follow"] m = Some (Bool follow) /\
    (index = true <->
       ConstructArgs.noIndex args <> Some true /\
       AppConfig.pageDefaults appConfig ≫= AppConfig.robotsIndex <> Some false) /\
    (follow = true <->
       ConstructArgs.noFollow args <> Some true /\
       AppConfig.pageDefaults appConfig ≫= AppConfig.robotsFollow <> Some false).
Proof.
  intros Hres. run_constructMetadata Hres.
  eexists _, _, _. split; [reflexivity|].
  split; [destruct (0 <? length (Val.own_props verification))%nat; reflexivity|].
  split; [destruct (0 <? length (Val.own_props verification))%nat; reflexivity|].
  split.
  - destruct (ConstructArgs.noIndex args) as [[]|];
      destruct (AppConfig.pageDefaults appConfig ≫= AppConfig.robotsIndex) as [[]|];
      cbn; intuition congruence.
  - destruct (ConstructArgs.noFollow args) as [[]|];
      destruct (AppConfig.pageDefaults appConfig ≫= AppConfig.robotsFollow) as [[]|];
      cbn; intuition congruence.
Qed.

(** C4: the metadata has a [verification] field exactly when one of the
    two tokens is non-empty after trimming; the field then maps [google]
    and [yandex], and nothing else, to the trimmed tokens that are
    non-empty. *)
Theorem constructMetadata_verification (args : ConstructArgs.t) :
  URLs_resolve args ->
  exists m,
    constructMetadata args = Some m /\
    (is_Some (Val.get "verification" m) <->
       is_Some (token "NEXT_PUBLIC_GOOGLE_VERIFICATION") \/
       is_Some (token "NEXT_PUBLIC_YANDEX_VERIFICATION")) /\
    (forall v, Val.get "verification" m = Some v ->
       Val.get "google" v = Str <$> token "NEXT_PUBLIC_GOOGLE_VERIFICATION" /\
       Val.get "yandex" v = Str <$> token "NEXT_PUBLIC_YANDEX_VERIFICATION" /\
       forall k, is_Some (Val.get k v) -> k = "google" \/ k = "yandex").
Proof.
  intros Hres. run_constructMetadata Hres.
  eexists. split; [reflexivity|].
  unfold verification, token.
  destruct (process_env !! "NEXT_PUBLIC_GOOGLE_VERIFICATION") as [g|];
    [cbn [fmap option_fmap option_map]; destruct (JS.trim g) as [|gc gt]|];
    (destruct (process_env !! "NEXT_PUBLIC_YANDEX_VERIFICATION") as [y|];
     [cbn [fmap option_fmap option_map]; destruct (JS.trim y) as [|yc yt]|]);
    cbn.
  all: split; [unfold is_Some; split; intros Hs | intros v [= <-]].
  all: try first [ destruct Hs as [? Hs]; discriminate Hs
                 | left; eexists; reflexivity
                 | right; eexists; reflexivity ].
  all: try first [ eexists; reflexivity
                 | destruct Hs as [[? Hs]|[? Hs]]; discriminate Hs ].
  all: cbn; repeat split; try reflexivity.
  all: intros k;
       repeat match goal with
              | |- context [String.eqb k ?s] =>
                  destruct (String.eqb_spec k s) as [->|_]; [auto|]
              end;
       intros [? [=]].
Qed.

End ConstructMetadata.

(** ** buildPersonSchema *)

(** *** Reading a property back after assignments *)

Lemma lookup_set_prop (k k' : string) (v : value) (props : list (string * value)) :
  Val.lookup_prop k (Val.set_prop k' v props) =
  if String.eqb k k' then Some v else Val.lookup_prop k props.
Proof.
  induction props as [|[k1 v1] props IH]; cbn [Val.set_prop Val.lookup_prop].
  - reflexivity.
  - destruct (String.eqb_spec k' k1) as [->|Hne]; cbn [Val.lookup_prop].
    + destruct (String.eqb k k1); reflexivity.
    + rewrite IH. destruct (String.eqb_spec k k') as [->|]; [|reflexivity].
      destruct (String.eqb_spec k' k1); [contradiction | reflexivity].
Qed.

Lemma assign_if_set_obj (k : string) (v : option jsstring) (props : list (string * value)) :
  (if Val.truthy (Val.opt v) then Val.set k (Val.opt v) (Obj props) else Obj props) =
  Obj (assigned k v props).
Proof. destruct v as [[|c t]|]; reflexivity. Qed.

Lemma lookup_assigned (k k' : string) (v : option jsstring) (props : list (string * value)) :
  Val.lookup_prop k (assigned k' v props) =
  match nonempty v with
  | Some s => if String.eqb k k' then Some (Str s) else Val.lookup_prop k props
  | None => Val.lookup_prop k props
  end.
Proof. unfold assigned. destruct (nonempty v); [apply lookup_set_prop | reflexivity]. Qed.

(** The list [sameAsUrls] the function has gathered before its last test
    is [profile_urls]; the object then reads as follows. *)
Lemma buildPersonSchema_unfold (author : AuthorInfo.t) :
  buildPersonSchema author =
  let props :=
    assigned "jobTitle" (AuthorInfo.jobTitle author)
      (assigned "description" (AuthorInfo.bio author)
         (assigned "image" (AuthorInfo.image author)
            (assigned "email" (AuthorInfo.email author)
               (assigned "url" (AuthorInfo.url author)
                  [("@type", Str (JS.lit "Person"));
                   ("name", Str (AuthorInfo.name author))])))) in
  match profile_urls author with
  | [] => Obj props
  | urls => Obj (Val.set_prop "sameAs" (Arr (Str <$> urls)) props)
  end.
Proof.
  unfold buildPersonSchema. cbn zeta.
  match goal with
  | |- context [(0 <? length ?u)%nat] =>
      assert (Hurls : u = profile_urls author); [|rewrite Hurls; clear Hurls]
  end.
  { unfold profile_urls, derived_urls, handle_url.
    destruct (AuthorInfo.sameAs author) as [l|];
      destruct (AuthorInfo.twitter author) as [[|c t]|];
      cbn [nonempty default JS.truthy andb app];
      rewrite ?app_nil_r; try reflexivity;
      destruct (JS.startsWith _ _); cbn [negb app]; rewrite ?app_nil_r; reflexivity. }
  unfold object. cbn [fold_left Val.add_member Val.set_prop String.eqb Ascii.eqb
                        Bool.eqb].
  rewrite !assign_if_set_obj.
  destruct (profile_urls author); reflexivity.
Qed.

Lemma buildPersonSchema_sameAs (author : AuthorInfo.t) :
  Val.get "sameAs" (buildPersonSchema author) =
  match profile_urls author with
  | [] => None
  | urls => Some (Arr (Str <$> urls))
  end.
Proof.
  rewrite buildPersonSchema_unfold. cbn zeta.
  destruct (profile_urls author) as [|u urls]; cbn [Val.get].
  - rewrite !lookup_assigned.
    repeat match goal with |- context [nonempty ?o] => destruct (nonempty o) end;
      reflexivity.
  - rewrite lookup_set_prop. reflexivity.
Qed.

(** C6, as the code has it: each of [url], [email], [image], [description]
    (from [bio]) and [jobTitle] is in the Person object exactly when the
    author's field is present and not empty, with the field's value; and a
    handle that is given, not empty and does not open with ["http"] puts
    its profile URL last in [sameAs], after the record's other URLs. *)
Theorem buildPersonSchema_fields (author : AuthorInfo.t) :
  let person := buildPersonSchema author in
  Val.get "url" person = Str <$> nonempty (AuthorInfo.url author) /\
  Val.get "email" person = Str <$> nonempty (AuthorInfo.email author) /\
  Val.get "image" person = Str <$> nonempty (AuthorInfo.image author) /\
  Val.get "description" person = Str <$> nonempty (AuthorInfo.bio author) /\
  Val.get "jobTitle" person = Str <$> nonempty (AuthorInfo.jobTitle author) /\
  (forall handle,
     AuthorInfo.twitter author = Some handle ->
     handle <> [] ->
     JS.startsWith handle (JS.lit "http") = false ->
     Val.get "sameAs" person =
     Some (Arr (Str <$> (default [] (AuthorInfo.sameAs author) ++ [handle_url handle])))).
Proof.
  cbn zeta. repeat split.
  1-5: rewrite buildPersonSchema_unfold; cbn zeta;
       destruct (profile_urls author); cbn [Val.get];
       rewrite ?lookup_set_prop; cbn [String.eqb Ascii.eqb Bool.eqb];
       rewrite !lookup_assigned;
       repeat match goal with |- context [nonempty ?o] => destruct (nonempty o) end;
       reflexivity.
  intros handle Htw Hne Hhttp.
  rewrite buildPersonSchema_sameAs. unfold profile_urls, derived_urls.
  rewrite Htw. destruct handle as [|c t]; [contradiction|].
  cbn [nonempty]. rewrite Hhttp.
  destruct (default [] (AuthorInfo.sameAs author)); reflexivity.
Qed.

(** C10: the Person object has a [sameAs] field exactly when the record's
    profile URLs together with the handle-derived one are not empty, and
    the field is then that list; without a [sameAs] list and without a
    usable handle there is no [sameAs] field, not an empty one. *)
Theorem buildPersonSchema_sameAs_iff (author : AuthorInfo.t) :
  let person := buildPersonSchema author in
  (is_Some (Val.get "sameAs" person) <-> profile_urls author <> []) /\
  (forall v, Val.get "sameAs" person = Some v ->
             v = Arr (Str <$> profile_urls author) /\ v <> Arr []) /\
  (AuthorInfo.sameAs author = None -> derived_urls author = [] ->
   Val.get "sameAs" person = None).
Proof.
  cbn zeta. rewrite buildPersonSchema_sameAs. split; [|split].
  - destruct (profile_urls author); split.
    + intros [? [=]].
    + contradiction.
    + discriminate.
    + eauto.
  - intros v. destruct (profile_urls author); intros [= <-].
    split; [reflexivity | discriminate].
  - intros Hs Hd. unfold profile_urls. rewrite Hs, Hd. reflexivity.
Qed.

(** ** Object literals with guarded spreads *)

(** [...(c && { ... })] adds the properties when [c] is truthy and nothing
    when it is falsy: a falsy value has no own properties. *)
Lemma spread_guarded (c : value) (ms : list Val.member) (props : list (string * value)) :
  Val.add_member props (Spread (Val.and c (object ms))) =
  if Val.truthy c
  then fold_left (fun acc kv => Val.set_prop kv.1 kv.2 acc)
                 (fold_left Val.add_member ms []) props
  else props.
Proof.
  unfold Val.and. destruct (Val.truthy c) eqn:Hc; [reflexivity|].
  destruct c as [|s|n|b|items|fields]; try discriminate; try reflexivity.
  destruct s; [reflexivity | discriminate].
Qed.

(** ** buildArticleSchema and buildBreadcrumbSchema *)

Section UrlBuilders.
Context `{host : Host}.

(** C9: [dateModified] of the Article is the publication date when the
    argument is absent and when it is the empty string, and the argument
    itself only when that is a non-empty string. *)
Theorem buildArticleSchema_dateModified (args : ArticleArgs.t) :
  is_Some (URL_toString (AppConfig.logo appConfig) (Some (AppConfig.url appConfig))) ->
  exists schema,
    buildArticleSchema args = Some schema /\
    (ArticleArgs.dateModified args = None ->
     Val.get "dateModified" schema = Some (Str (ArticleArgs.datePublished args))) /\
    (ArticleArgs.dateModified args = Some [] ->
     Val.get "dateModified" schema = Some (Str (ArticleArgs.datePublished args))) /\
    (forall d, ArticleArgs.dateModified args = Some d -> d <> [] ->
     Val.get "dateModified" schema = Some (Str d)).
Proof.
  intros [logo Hlogo]. unfold buildArticleSchema. cbn zeta.
  rewrite Hlogo. cbn [mbind option_bind].
  eexists. split; [reflexivity|].
  repeat split;
    [intros Hm | intros Hm | intros d Hm Hd; destruct d as [|c t]; [contradiction|]];
    rewrite Hm;
    destruct (ArticleArgs.description args) as [[|? ?]|];
    destruct (ArticleArgs.image args) as [[|? ?]|]; reflexivity.
Qed.

(** [map_indexed] returns when its callback does on every element, and
    then keeps length, order and index. *)
Lemma map_indexed_Some {A B} (f : nat -> A -> option B) (l : list A) (index : nat) :
  (forall j x, l !! j = Some x -> is_Some (f (index + j)%nat x)) ->
  exists ys,
    map_indexed f index l = Some ys /\
    length ys = length l /\
    forall j x, l !! j = Some x ->
      exists y, f (index + j)%nat x = Some y /\ ys !! j = Some y.
Proof.
  revert index. induction l as [|x l IH]; intros index Hf.
  - exists []. repeat split. intros j x [=].
  - destruct (Hf 0%nat x eq_refl) as [y Hy]. rewrite Nat.add_0_r in Hy.
    destruct (IH (S index)) as (ys & Hys & Hlen & Hnth).
    { intros j z Hj. replace (S index + j)%nat with (index + S j)%nat by lia.
      apply Hf. exact Hj. }
    exists (y :: ys). cbn [map_indexed]. rewrite Hy, Hys. cbn [mbind option_bind].
    repeat split.
    + cbn [length]. lia.
    + intros [|j] z Hj.
      * injection Hj as <-. rewrite Nat.add_0_r. eauto.
      * destruct (Hnth j z Hj) as (w & Hw & Hyw).
        replace (index + S j)%nat with (S index + j)%nat by lia. eauto.
Qed.

(** C5, as the code has it: when every url resolves against the site URL
    ([new URL] throws otherwise, and the call with it), the breadcrumb list
    has one element per pair, in order; the i-th one (from 0) carries
    position [i + 1], the i-th name, and the i-th url as resolved. *)
Theorem buildBreadcrumbSchema_items (breadcrumbs : list Breadcrumb.t) :
  Forall (fun item =>
            is_Some (URL_toString (Breadcrumb.url item) (Some (AppConfig.url appConfig))))
         breadcrumbs ->
  exists schema items,
    buildBreadcrumbSchema breadcrumbs = Some schema /\
    Val.get "itemListElement" schema = Some (Arr items) /\
    length items = length breadcrumbs /\
    forall i item, breadcrumbs !! i = Some item ->
      exists element resolved,
        items !! i = Some element /\
        URL_toString (Breadcrumb.url item) (Some (AppConfig.url appConfig)) = Some resolved /\
        Val.get "position" element = Some (Num (Number.of_Z (Z.of_nat i + 1))) /\
        Val.get "name" element = Some (Str (Breadcrumb.name item)) /\
        Val.get "item" element = Some (Str resolved).
Proof.
  intros Hall. unfold buildBreadcrumbSchema.
  match goal with
  | |- context [map_indexed ?f 0%nat breadcrumbs] =>
      destruct (map_indexed_Some f breadcrumbs 0) as (items & Hitems & Hlen & Hnth)
  end.
  { intros j item Hj. rewrite Forall_forall in Hall.
    destruct (Hall item) as [resolved Hr]; [eapply list_elem_of_lookup_2, Hj|].
    rewrite Hr. cbn [mbind option_bind]. eauto. }
  rewrite Hitems. cbn [mbind option_bind].
  eexists _, items. split; [reflexivity|]. split; [reflexivity|]. split; [exact Hlen|].
  intros i item Hi. destruct (Hnth i item Hi) as (element & Helement & Hlookup).
  cbn [Nat.add] in Helement.
  destruct (URL_toString (Breadcrumb.url item) _) as [resolved|]; [|discriminate].
  cbn [mbind option_bind] in Helement. injection Helement as <-.
  eexists _, resolved. split; [exact Hlookup|]. repeat split.
Qed.

(** The other way round: a url that does not resolve makes the call throw. *)
Lemma map_indexed_is_Some {A B} (f : nat -> A -> option B) (l : list A) (index : nat) :
  is_Some (map_indexed f index l) ->
  forall j x, l !! j = Some x -> is_Some (f (index + j)%nat x).
Proof.
  revert index. induction l as [|x l IH]; intros index Hsome j z Hj; [discriminate|].
  cbn [map_indexed] in Hsome.
  destruct (f index x) as [y|] eqn:Hy; [|destruct Hsome; discriminate].
  cbn [mbind option_bind] in Hsome.
  destruct (map_indexed f (S index) l) as [ys|] eqn:Hys; [|destruct Hsome; discriminate].
  destruct j as [|j].
  - injection Hj as <-. rewrite Nat.add_0_r, Hy. eauto.
  - replace (index + S j)%nat with (S index + j)%nat by lia.
    apply IH; [rewrite Hys; eauto | exact Hj].
Qed.

Lemma buildBreadcrumbSchema_returns (breadcrumbs : list Breadcrumb.t) :
  is_Some (buildBreadcrumbSchema breadcrumbs) ->
  Forall (fun item =>
            is_Some (URL_toString (Breadcrumb.url item) (Some (AppConfig.url appConfig))))
         breadcrumbs.
Proof.
  unfold buildBreadcrumbSchema. intros Hsome.
  match type of Hsome with
  | context [map_indexed ?f 0%nat breadcrumbs] =>
      destruct (map_indexed f 0%nat breadcrumbs) as [items|] eqn:Hitems;
      [|destruct Hsome; discriminate];
      pose proof (map_indexed_is_Some f breadcrumbs 0) as Hall
  end.
  rewrite Hitems in Hall. apply Forall_lookup. intros j item Hj.
  specialize (Hall ltac:(eauto) j item Hj). cbn [Nat.add] in Hall.
  destruct (URL_toString (Breadcrumb.url item) _); [eauto | destruct Hall; discriminate].
Qed.

End UrlBuilders.

(** ** toFixed *)

Lemma digits_are_digits (n : Z) : Forall is_digit (Number.digits n).
Proof.
  unfold Number.digits. generalize (N.to_uint (Z.to_N n)). intros u.
  induction u; cbn; constructor; try assumption; unfold is_digit; lia.
Qed.

Lemma fixed_two_decimals (n : Z) :
  exists whole d1 d2,
    Number.fixed n 2 = whole ++ JS.lit "." ++ [d1; d2] /\
    whole <> [] /\ Forall is_digit whole /\ is_digit d1 /\ is_digit d2.
Proof.
  unfold Number.fixed.
  set (m := repeat 48%N (2 + 1 - length (Number.digits n)) ++ Number.digits n).
  assert (Hm : Forall is_digit m).
  { apply Forall_app. split; [|apply digits_are_digits].
    apply Forall_forall. intros c Hc%list_elem_of_In%repeat_spec. subst c.
    unfold is_digit. lia. }
  assert (Hlen : (3 <= length m)%nat).
  { subst m. rewrite length_app, repeat_length. lia. }
  pose proof (Forall_drop _ (length m - 2) _ Hm) as Hdrop.
  pose proof (length_drop m (length m - 2)) as Hdl.
  destruct (drop (length m - 2) m) as [|d1 [|d2 [|d3 rest]]]; cbn [length] in Hdl; try lia.
  exists (take (length m - 2) m), d1, d2. split; [reflexivity|].
  split; [|split; [apply Forall_take, Hm|]].
  - intros Hnil. apply (f_equal length) in Hnil. rewrite length_take in Hnil.
    cbn [length] in Hnil. lia.
  - inversion Hdrop as [|? ? H1 H2]; subst. inversion H2; subst. auto.
Qed.

Lemma toFixed_two_decimals (x : number) :
  finite_below_1e21 x -> two_decimals (Number.toFixed x 2).
Proof.
  destruct x as [s|s| |s m e]; cbn [finite_below_1e21]; try contradiction.
  - intros _. cbn [Number.toFixed].
    destruct (fixed_two_decimals 0) as (whole & d1 & d2 & -> & ?).
    exists [], whole, d1, d2. auto.
  - intros Hsmall. cbn [Number.toFixed]. rewrite Hsmall.
    destruct (fixed_two_decimals (Number.nearest m e 2)) as (whole & d1 & d2 & -> & ?).
    exists (if s then JS.lit "-" else []), whole, d1, d2.
    split; [reflexivity|]. split; [destruct s; auto | assumption].
Qed.

Lemma dot_in_two_decimals (s : jsstring) : two_decimals s -> In 46%N s.
Proof.
  intros (sign & whole & d1 & d2 & -> & _).
  rewrite !in_app_iff. right. right. left. left. reflexivity.
Qed.

Example toFixed_nine : Number.toFixed (Number.of_Z 9) 2 = JS.lit "9.00".
Proof. vm_compute. reflexivity. Qed.

(** 1.005 lies just below 1.005 as a binary64 value, -0.001 rounds to a
    signed zero, and 10^21 leaves the fixed notation. *)
Example toFixed_1_005 :
  Number.toFixed (SFdiv Number.prec Number.emax (Number.of_Z 1005) (Number.of_Z 1000)) 2
  = JS.lit "1.00".
Proof. vm_compute. reflexivity. Qed.

Example toFixed_minus_thousandth :
  Number.toFixed (SFdiv Number.prec Number.emax (Number.of_Z (-1)) (Number.of_Z 1000)) 2
  = JS.lit "-0.00".
Proof. vm_compute. reflexivity. Qed.

Example toFixed_1e21 : Number.toFixed (Number.of_Z (10 ^ 21)) 2 = JS.lit "1e+21".
Proof. vm_compute. reflexivity. Qed.

Example toFixed_infinity : Number.toFixed (S754_infinity false) 2 = JS.lit "Infinity".
Proof. reflexivity. Qed.

(** ** buildProductSchema *)

Lemma buildProductSchema_aggregateRating (args : ProductArgs.t) :
  Val.get "aggregateRating" (buildProductSchema args) =
  match rated args with
  | Some (rating, reviewCount) =>
      Some (object [Field "@type" (Str (JS.lit "AggregateRating"));
                    Field "ratingValue" (Num rating);
                    Field "reviewCount" (Num reviewCount)])
  | None => None
  end.
Proof.
  unfold buildProductSchema. cbn zeta. unfold object at 1. cbn [fold_left].
  rewrite !spread_guarded.
  assert (Hrated :
    Val.truthy (Val.and (Val.opt_num (ProductArgs.rating args))
                        (Val.opt_num (ProductArgs.reviewCount args))) =
    match rated args with Some _ => true | None => false end).
  { unfold rated, Val.and.
    destruct (ProductArgs.rating args) as [r|]; [|reflexivity].
    destruct (ProductArgs.reviewCount args) as [c|]; cbn [Val.opt_num Val.truthy].
    - destruct (Number.truthy r) eqn:Hr; cbn [andb Val.truthy].
      + destruct (Number.truthy c); reflexivity.
      + exact Hr.
    - destruct (Number.truthy r) eqn:Hr; [reflexivity | cbn [Val.truthy]; exact Hr]. }
  rewrite Hrated. unfold rated.
  destruct (ProductArgs.rating args) as [r|], (ProductArgs.reviewCount args) as [c|];
    try destruct (Number.truthy r && Number.truthy c);
    destruct (Val.truthy (Val.opt (ProductArgs.description args)));
    destruct (Val.truthy (Val.opt (ProductArgs.image args)));
    destruct (Val.truthy (Val.opt (ProductArgs.brand args)));
    reflexivity.
Qed.

Lemma buildProductSchema_price (args : ProductArgs.t) :
  Val.path ["offers"; "price"] (buildProductSchema args) =
  Some (Str (Number.toFixed (ProductArgs.price args) 2)).
Proof.
  unfold buildProductSchema. cbn zeta. unfold object at 1. cbn [fold_left].
  rewrite !spread_guarded.
  destruct (Val.truthy (Val.and _ _));
    destruct (Val.truthy (Val.opt (ProductArgs.description args)));
    destruct (Val.truthy (Val.opt (ProductArgs.image args)));
    destruct (Val.truthy (Val.opt (ProductArgs.brand args)));
    reflexivity.
Qed.

(** C1, as the code has it: the Product object has an [aggregateRating]
    field exactly when [rating] and [reviewCount] are both given and
    neither is 0 or NaN; the field then carries the given rating as
    [ratingValue] and the given [reviewCount]. *)
Theorem buildProductSchema_rating (args : ProductArgs.t) :
  let product := buildProductSchema args in
  (is_Some (Val.get "aggregateRating" product) <->
   exists rating reviewCount,
     ProductArgs.rating args = Some rating /\
     ProductArgs.reviewCount args = Some reviewCount /\
     Number.truthy rating = true /\ Number.truthy reviewCount = true) /\
  (forall aggregate, Val.get "aggregateRating" product = Some aggregate ->
     Val.get "ratingValue" aggregate = Num <$> ProductArgs.rating args /\
     Val.get "reviewCount" aggregate = Num <$> ProductArgs.reviewCount args).
Proof.
  cbn zeta. rewrite buildProductSchema_aggregateRating. unfold rated.
  destruct (ProductArgs.rating args) as [r|], (ProductArgs.reviewCount args) as [c|].
  2-4: split; [split; [intros [? [=]] | intros (? & ? & ? & ? & _); discriminate]
              | intros ? [=]].
  destruct (Number.truthy r) eqn:Hr, (Number.truthy c) eqn:Hc; cbn [andb].
  2-4: split; [split; [intros [? [=]] | intros (? & ? & [= <-] & [= <-] & ? & ?); congruence]
              | intros ? [=]].
  split.
  - split; [intros _; exists r, c; auto | eauto].
  - intros aggregate [= <-]. split; reflexivity.
Qed.

(** C7, as the code has it: for a finite price of magnitude below 10^21
    the [price] of the [offers] block is the [toFixed(2)] rendering, an
    optional sign, digits, a point and exactly two digits. *)
Theorem buildProductSchema_price_two_decimals (args : ProductArgs.t) :
  finite_below_1e21 (ProductArgs.price args) ->
  exists rendered,
    Val.path ["offers"; "price"] (buildProductSchema args) = Some (Str rendered) /\
    rendered = Number.toFixed (ProductArgs.price args) 2 /\
    two_decimals rendered.
Proof.
  intros Hprice. eexists. split; [apply buildProductSchema_price|].
  split; [reflexivity | apply toFixed_two_decimals, Hprice].
Qed.

(** * The theorems at concrete inputs *)

Lemma constructMetadata_description_witness :
  ConstructArgs.description Inputs.long_args = Some Inputs.long_description /\
  @URLs_resolve Sample.host Inputs.long_args /\
  exists m out,
    @constructMetadata Sample.host Inputs.long_args = Some m /\
    Val.get "description" m = Some (Str out) /\
    ((160 < length Inputs.long_description)%nat ->
       out = take 157 Inputs.long_description ++ JS.lit "..." /\
       (length out <= 160)%nat /\ ends_with out (JS.lit "...")) /\
    ((length Inputs.long_description <= 160)%nat -> out = Inputs.long_description).
Proof.
  assert (Hres : @URLs_resolve Sample.host Inputs.long_args)
    by (split; eexists; vm_compute; reflexivity).
  split; [reflexivity|]. split; [exact Hres|].
  apply (@constructMetadata_description Sample.host Inputs.long_args
           Inputs.long_description eq_refl Hres).
Defined.

Lemma constructMetadata_verification_witness :
  @URLs_resolve Sample.host ConstructArgs.empty /\
  exists m,
    @constructMetadata Sample.host ConstructArgs.empty = Some m /\
    (is_Some (Val.get "verification" m) <->
       is_Some (@token Sample.host "NEXT_PUBLIC_GOOGLE_VERIFICATION") \/
       is_Some (@token Sample.host "NEXT_PUBLIC_YANDEX_VERIFICATION")) /\
    (forall v, Val.get "verification" m = Some v ->
       Val.get "google" v = Str <$> @token Sample.host "NEXT_PUBLIC_GOOGLE_VERIFICATION" /\
       Val.get "yandex" v = Str <$> @token Sample.host "NEXT_PUBLIC_YANDEX_VERIFICATION" /\
       forall k, is_Some (Val.get k v) -> k = "google" \/ k = "yandex").
Proof.
  assert (Hres : @URLs_resolve Sample.host ConstructArgs.empty)
    by (split; eexists; vm_compute; reflexivity).
  split; [exact Hres|].
  apply (@constructMetadata_verification Sample.host ConstructArgs.empty Hres).
Defined.

Lemma constructMetadata_robots_witness :
  @URLs_resolve Sample.host Inputs.long_args /\
  exists m index follow,
    @constructMetadata Sample.host Inputs.long_args = Some m /\
    Val.path ["robots"; "index"] m = Some (Bool index) /\
    Val.path ["robots"; "follow"] m = Some (Bool follow) /\
    (index = true <->
       ConstructArgs.noIndex Inputs.long_args <> Some true /\
       AppConfig.pageDefaults Sample.config ≫= AppConfig.robotsIndex <> Some false) /\
    (follow = true <->
       ConstructArgs.noFollow Inputs.long_args <> Some true /\
       AppConfig.pageDefaults Sample.config ≫= AppConfig.robotsFollow <> Some false).
Proof.
  assert (Hres : @URLs_resolve Sample.host Inputs.long_args)
    by (split; eexists; vm_compute; reflexivity).
  split; [exact Hres|].
  apply (@constructMetadata_robots Sample.host Inputs.long_args Hres).
Defined.

Lemma buildArticleSchema_dateModified_witness :
  is_Some (@URL_toString Sample.host (AppConfig.logo Sample.config)
             (Some (AppConfig.url Sample.config))) /\
  ArticleArgs.dateModified Inputs.article = Some [] /\
  exists schema,
    @buildArticleSchema Sample.host Inputs.article = Some schema /\
    Val.get "dateModified" schema = Some (Str (JS.lit "2024-01-01")).
Proof.
  assert (Hlogo : is_Some (@URL_toString Sample.host (AppConfig.logo Sample.config)
                             (Some (AppConfig.url Sample.config))))
    by (eexists; vm_compute; reflexivity).
  split; [exact Hlogo|]. split; [reflexivity|].
  destruct (@buildArticleSchema_dateModified Sample.host Inputs.article Hlogo)
    as (schema & Hschema & _ & Hempty & _).
  exists schema. split; [exact Hschema | exact (Hempty eq_refl)].
Defined.

Lemma buildBreadcrumbSchema_items_witness :
  Forall (fun item =>
            is_Some (@URL_toString Sample.host (Breadcrumb.url item)
                       (Some (AppConfig.url Sample.config))))
         Inputs.home_blog /\
  exists schema items,
    @buildBreadcrumbSchema Sample.host Inputs.home_blog = Some schema /\
    Val.get "itemListElement" schema = Some (Arr items) /\
    length items = 2%nat /\
    (exists first, items !! 0%nat = Some first /\
       Val.get "position" first = Some (Num (Number.of_Z 1)) /\
       Val.get "item" first = Some (Str (JS.lit "https://aifa.dev/"))) /\
    (exists second, items !! 1%nat = Some second /\
       Val.get "position" second = Some (Num (Number.of_Z 2)) /\
       Val.get "item" second = Some (Str (JS.lit "https://aifa.dev/blog"))).
Proof.
  assert (Hall : Forall (fun item =>
            is_Some (@URL_toString Sample.host (Breadcrumb.url item)
                       (Some (AppConfig.url Sample.config))))
         Inputs.home_blog)
    by (repeat constructor; eexists; vm_compute; reflexivity).
  split; [exact Hall|].
  destruct (@buildBreadcrumbSchema_items Sample.host Inputs.home_blog Hall)
    as (schema & items & Hschema & Hget & Hlen & Hnth).
  exists schema, items. split; [exact Hschema|]. split; [exact Hget|].
  split; [exact Hlen|]. split.
  - destruct (Hnth 0%nat _ eq_refl) as (first & resolved & H0 & Hr & Hp & _ & Hi).
    exists first. split; [exact H0|]. split; [exact Hp|].
    vm_compute in Hr. injection Hr as <-. exact Hi.
  - destruct (Hnth 1%nat _ eq_refl) as (second & resolved & H1 & Hr & Hp & _ & Hi).
    exists second. split; [exact H1|]. split; [exact Hp|].
    vm_compute in Hr. injection Hr as <-. exact Hi.
Defined.

Lemma buildPersonSchema_fields_witness :
  AuthorInfo.twitter DEFAULT_AUTHOR = Some (JS.lit "@aifa_agi") /\
  JS.lit "@aifa_agi" <> [] /\
  JS.startsWith (JS.lit "@aifa_agi") (JS.lit "http") = false /\
  Val.get "sameAs" (buildPersonSchema DEFAULT_AUTHOR) =
  Some (Arr [Str (JS.lit "https://github.com/aifa-agi");
             Str (JS.lit "https://twitter.com/aifa_agi");
             Str (JS.lit "https://twitter.com/aifa_agi")]).
Proof.
  assert (Hne : JS.lit "@aifa_agi" <> []) by discriminate.
  split; [reflexivity|]. split; [exact Hne|]. split; [reflexivity|].
  exact (proj2 (proj2 (proj2 (proj2 (proj2 (buildPersonSchema_fields DEFAULT_AUTHOR)))))
           (JS.lit "@aifa_agi") eq_refl Hne eq_refl).
Defined.

Lemma buildPersonSchema_sameAs_iff_witness :
  AuthorInfo.sameAs Inputs.anonymous = None /\
  derived_urls Inputs.anonymous = [] /\
  Val.get "sameAs" (buildPersonSchema Inputs.anonymous) = None.
Proof.
  split; [reflexivity|]. split; [reflexivity|].
  exact (proj2 (proj2 (buildPersonSchema_sameAs_iff Inputs.anonymous)) eq_refl eq_refl).
Defined.

Lemma buildProductSchema_rating_witness :
  exists aggregate,
    Val.get "aggregateRating" (buildProductSchema Inputs.rated_product) = Some aggregate /\
    Val.get "ratingValue" aggregate = Some (Num (Number.of_Z 4)) /\
    Val.get "reviewCount" aggregate = Some (Num (Number.of_Z 12)).
Proof.
  destruct (buildProductSchema_rating Inputs.rated_product) as [[_ Hpresent] Hcarries].
  destruct Hpresent as [aggregate Haggregate].
  { exists (Number.of_Z 4), (Number.of_Z 12). repeat split. }
  exists aggregate. split; [exact Haggregate|].
  exact (Hcarries aggregate Haggregate).
Defined.

Lemma buildProductSchema_price_two_decimals_witness :
  finite_below_1e21 (ProductArgs.price Inputs.rated_product) /\
  Number.toFixed (ProductArgs.price Inputs.rated_product) 2 = JS.lit "9.00" /\
  exists rendered,
    Val.path ["offers"; "price"] (buildProductSchema Inputs.rated_product)
    = Some (Str rendered) /\
    rendered = Number.toFixed (ProductArgs.price Inputs.rated_product) 2 /\
    two_decimals rendered.
Proof.
  assert (Hprice : finite_below_1e21 (ProductArgs.price Inputs.rated_product))
    by (vm_compute; reflexivity).
  split; [exact Hprice|]. split; [vm_compute; reflexivity|].
  apply (buildProductSchema_price_two_decimals Inputs.rated_product Hprice).
Defined.

(** ** Where the documented behaviour and the code part *)

(** C1 as stated fails: with rating 0 and review count 5 both numbers are
    given, and the Product object has no [aggregateRating]. *)
Lemma buildProductSchema_rating_zero :
  ~ (is_Some (Val.get "aggregateRating" (buildProductSchema Inputs.zero_rated_product)) <->
     is_Some (ProductArgs.rating Inputs.zero_rated_product) /\
     is_Some (ProductArgs.reviewCount Inputs.zero_rated_product)).
Proof.
  intros [_ Hback]. destruct Hback as [aggregate Haggregate].
  - split; eexists; reflexivity.
  - vm_compute in Haggregate. discriminate Haggregate.
Qed.

(** C6 as stated fails: an author whose [url] is present as the empty
    string gets no [url] field, and whose handle is given as the empty
    string, which is no absolute URL, gets no [sameAs] entry. *)
Lemma buildPersonSchema_blank_fields :
  ~ (is_Some (Val.get "url" (buildPersonSchema Inputs.blank_author)) <->
     is_Some (AuthorInfo.url Inputs.blank_author)) /\
  is_Some (AuthorInfo.twitter Inputs.blank_author) /\
  Val.get "sameAs" (buildPersonSchema Inputs.blank_author) = None.
Proof.
  split; [|split; [eexists; reflexivity | reflexivity]].
  intros [_ Hback]. destruct Hback as [v Hv].
  - eexists; reflexivity.
  - vm_compute in Hv. discriminate Hv.
Qed.

(** C7 as stated fails: the price NaN is rendered as ["NaN"], which has no
    decimal digits. *)
Lemma buildProductSchema_price_NaN :
  exists rendered,
    Val.path ["offers"; "price"] (buildProductSchema Inputs.nan_priced_product)
    = Some (Str rendered) /\
    rendered = JS.lit "NaN" /\
    ~ two_decimals rendered.
Proof.
  exists (JS.lit "NaN"). split; [reflexivity|]. split; [reflexivity|].
  intros Hdot%dot_in_two_decimals. vm_compute in Hdot.
  repeat destruct Hdot as [Hdot|Hdot]; try discriminate Hdot. exact Hdot.
Qed.

(** C5 as stated fails: the url ["http://"] has a scheme and no host, the
    [URL] constructor throws on it although the site URL is valid, and
    [buildBreadcrumbSchema] throws with it: no list is returned. *)
Lemma buildBreadcrumbSchema_hostless_url :
  is_Some (@URL_toString Sample.host (AppConfig.url Sample.config) None) /\
  ~ exists schema items,
      @buildBreadcrumbSchema Sample.host Cases.broken_crumbs = Some schema /\
      Val.get "itemListElement" schema = Some (Arr items) /\
      length items = length Cases.broken_crumbs.
Proof.
  split; [eexists; vm_compute; reflexivity|].
  intros (schema & items & Hschema & _). vm_compute in Hschema. discriminate Hschema.
Qed.

(** * Further properties of the module *)

(** ** normalizePath *)

Section NormalizePathFacts.
Implicit Types s p t : jsstring.

Lemma trimStart_head s :
  match JS.trimStart s with
  | [] => True
  | c :: _ => JS.isWhiteSpace c = false
  end.
Proof.
  induction s as [|c s IH]; cbn [JS.trimStart]; [exact I|].
  destruct (JS.isWhiteSpace c) eqn:Hc; [exact IH | exact Hc].
Qed.

Lemma trimEnd_keeps s c :
  last s = Some c -> JS.isWhiteSpace c = false -> JS.trimEnd s = s.
Proof.
  intros Hlast Hc. unfold JS.trimEnd.
  destruct (rev s) as [|d r] eqn:Hrev.
  - apply (f_equal (@rev N)) in Hrev. rewrite rev_involutive in Hrev. subst s.
    cbn in Hlast. discriminate Hlast.
  - assert (Hd : d = c).
    { apply (f_equal (@rev N)) in Hrev. rewrite rev_involutive in Hrev. subst s.
      cbn [rev] in Hlast. rewrite last_snoc in Hlast. congruence. }
    subst d. cbn [JS.trimStart]. rewrite Hc. rewrite <- Hrev. apply rev_involutive.
Qed.

(** What [trim] leaves is empty or ends with a code unit that is no
    white space. *)
Lemma trim_last p :
  match last (JS.trim p) with
  | None => JS.trim p = []
  | Some c => JS.isWhiteSpace c = false
  end.
Proof.
  unfold JS.trim, JS.trimEnd.
  pose proof (trimStart_head (rev (JS.trimStart p))) as Hhead.
  destruct (JS.trimStart (rev (JS.trimStart p))) as [|c r]; [reflexivity|].
  cbn [rev]. rewrite last_snoc. exact Hhead.
Qed.

Lemma replace_dslash_last s :
  last (JS.replace s (JS.lit "//") (JS.lit "/")) = last s.
Proof.
  change (JS.lit "//") with [47%N; 47%N]. change (JS.lit "/") with [47%N].
  induction s as [|c s IH]; [reflexivity|].
  cbn [JS.replace]. destruct (JS.is_prefix [47%N; 47%N] (c :: s)) eqn:Hp.
  - destruct s as [|d s];
      [cbn [JS.is_prefix] in Hp; rewrite andb_false_r in Hp; discriminate Hp|].
    cbn [JS.is_prefix] in Hp.
    apply andb_prop in Hp as [<-%N.eqb_eq Hp]. apply andb_prop in Hp as [<-%N.eqb_eq _].
    cbn [length drop app]. destruct s; reflexivity.
  - destruct s as [|d s]; [reflexivity|].
    change (last (c :: d :: s)) with (last (d :: s)). rewrite <- IH.
    destruct (JS.replace (d :: s) [47%N; 47%N] [47%N]) as [|e r] eqn:Hr; [|reflexivity].
    exfalso. cbn [JS.replace] in Hr.
    destruct (JS.is_prefix [47%N; 47%N] (d :: s)); discriminate.
Qed.

Lemma collapse_last fuel s : last (collapse fuel s) = last s.
Proof.
  revert s; induction fuel as [|fuel IH]; intros s; cbn [collapse];
    destruct (JS.includes s _); try reflexivity.
  rewrite IH. apply replace_dslash_last.
Qed.

Lemma collapse_clean fuel s :
  JS.includes s (JS.lit "//") = false -> collapse fuel s = s.
Proof. intros H. destruct fuel; cbn [collapse]; rewrite H; reflexivity. Qed.

(** The result never ends in white space. *)
Lemma normalizePath_last (p : option jsstring) :
  exists c, last (normalizePath p) = Some c /\ JS.isWhiteSpace c = false.
Proof.
  unfold normalizePath.
  destruct (negb (Val.truthy (Val.opt p))); [exists 47%N; split; reflexivity|].
  rewrite collapse_last. pose proof (trim_last (default [] p)) as Ht.
  destruct (JS.startsWith _ _) eqn:Hs.
  - cbn [negb]. destruct (last (JS.trim (default [] p))) as [c|] eqn:Hl; [eauto|].
    rewrite Ht in Hs. discriminate Hs.
  - cbn [negb]. change (JS.lit "/") with [47%N].
    destruct (JS.trim (default [] p)) as [|d t] eqn:Htrim.
    + exists 47%N. split; reflexivity.
    + change (last ([47%N] ++ d :: t)) with (last (d :: t)).
      destruct (last (d :: t)) as [c|] eqn:Hl; [eauto | discriminate Ht].
Qed.

(** A path that is already normal comes back as it is. *)
Lemma normalizePath_fixed s c :
  JS.startsWith s (JS.lit "/") = true ->
  JS.includes s (JS.lit "//") = false ->
  last s = Some c -> JS.isWhiteSpace c = false ->
  normalizePath (Some s) = s.
Proof.
  intros Hslash Hclean Hlast Hc. unfold normalizePath.
  destruct s as [|d t]; [discriminate|]. cbn [Val.opt Val.truthy JS.truthy negb default].
  assert (Hd : d = 47%N).
  { unfold JS.startsWith in Hslash. change (JS.lit "/") with [47%N] in Hslash.
    cbn [JS.is_prefix] in Hslash. apply andb_prop in Hslash as [H%N.eqb_eq _]. congruence. }
  assert (Htrim : JS.trim (d :: t) = d :: t).
  { unfold JS.trim. subst d. cbn [JS.trimStart].
    change (JS.isWhiteSpace 47) with false. cbn iota.
    eapply trimEnd_keeps; eassumption. }
  unfold id. rewrite Htrim, Hslash. cbn [negb]. apply collapse_clean, Hclean.
Qed.

Lemma segments_replace_dslash current s :
  segments_from current (JS.replace s (JS.lit "//") (JS.lit "/")) = segments_from current s.
Proof.
  change (JS.lit "//") with [47%N; 47%N]. change (JS.lit "/") with [47%N].
  revert current. induction s as [|c s IH]; intros current; [reflexivity|].
  cbn [JS.replace]. destruct (JS.is_prefix [47%N; 47%N] (c :: s)) eqn:Hp.
  - destruct s as [|d s];
      [cbn [JS.is_prefix] in Hp; rewrite andb_false_r in Hp; discriminate Hp|].
    cbn [JS.is_prefix] in Hp.
    apply andb_prop in Hp as [<-%N.eqb_eq Hp]. apply andb_prop in Hp as [<-%N.eqb_eq _].
    cbn [length drop app segments_from]. change (47 =? 47)%N with true. cbn iota.
    destruct current; reflexivity.
  - cbn [segments_from]. destruct (c =? 47)%N; [destruct current|]; rewrite IH; reflexivity.
Qed.

Lemma segments_collapse fuel s : segments (collapse fuel s) = segments s.
Proof.
  unfold segments. revert s; induction fuel as [|fuel IH]; intros s; cbn [collapse];
    destruct (JS.includes s _); try reflexivity.
  rewrite IH. apply segments_replace_dslash.
Qed.

End NormalizePathFacts.

(** X1: normalizing twice is normalizing once. *)
Theorem normalizePath_idempotent (p : option jsstring) :
  normalizePath (Some (normalizePath p)) = normalizePath p.
Proof.
  destruct (normalizePath_shape p) as [[Hslash _] Hclean].
  destruct (normalizePath_last p) as (c & Hlast & Hc).
  exact (normalizePath_fixed _ c Hslash Hclean Hlast Hc).
Qed.

(** X2: normalization only adds or drops slashes: the non-empty segments
    of the result are those of the trimmed input, in the same order. *)
Theorem normalizePath_segments (p : jsstring) :
  segments (normalizePath (Some p)) = segments (JS.trim p).
Proof.
  unfold normalizePath. cbn [Val.opt Val.truthy default].
  destruct p as [|c t]; [reflexivity|]. cbn [JS.truthy negb].
  rewrite segments_collapse.
  destruct (JS.startsWith _ _); reflexivity.
Qed.

(** ** truncateDescription *)

Lemma truncateDescription_cases (d : jsstring) (m : Z) :
  (3 <= m)%Z ->
  truncateDescription d (Some m) =
  if (Z.of_nat (length d) <=? m)%Z then d else take (Z.to_nat (m - 3)) d ++ JS.lit "...".
Proof.
  intros Hm. unfold truncateDescription.
  change (default MAX_DESCRIPTION_LENGTH (Some m)) with m. cbn zeta.
  destruct (Z.leb_spec (Z.of_nat (length d)) m); [reflexivity|].
  rewrite substring_prefix by lia. reflexivity.
Qed.

Lemma truncateDescription_length (d : jsstring) (m : Z) :
  (3 <= m)%Z -> (Z.of_nat (length (truncateDescription d (Some m))) <= m)%Z.
Proof.
  intros Hm. rewrite truncateDescription_cases by exact Hm.
  destruct (Z.leb_spec (Z.of_nat (length d)) m) as [Hle|Hgt]; [exact Hle|].
  rewrite length_app, length_take. change (length (JS.lit "...")) with 3%nat. lia.
Qed.

Lemma truncateDescription_default_length (d : jsstring) :
  (length (truncateDescription d None) <= 160)%nat.
Proof.
  change (truncateDescription d None) with (truncateDescription d (Some 160%Z)).
  pose proof (truncateDescription_length d 160). lia.
Qed.

(** X3: with a limit of at least 3 the result never exceeds the limit, and
    it is the description itself or a prefix of it followed by ["..."]. *)
Theorem truncateDescription_bound (d : jsstring) (m : Z) :
  (3 <= m)%Z ->
  (Z.of_nat (length (truncateDescription d (Some m))) <= m)%Z /\
  (truncateDescription d (Some m) = d \/
   exists front, front `prefix_of` d /\
                 truncateDescription d (Some m) = front ++ JS.lit "...").
Proof.
  intros Hm. rewrite truncateDescription_cases by exact Hm.
  destruct (Z.leb_spec (Z.of_nat (length d)) m) as [Hle|Hgt].
  - split; [exact Hle | left; reflexivity].
  - split.
    + rewrite length_app, length_take. change (length (JS.lit "...")) with 3%nat. lia.
    + right. exists (take (Z.to_nat (m - 3)) d). split; [apply prefix_take | reflexivity].
Qed.

Lemma truncateDescription_bound_witness :
  (3 <= 10)%Z /\
  truncateDescription (JS.lit "Hello, wide world") (Some 10%Z) = JS.lit "Hello, ..." /\
  (Z.of_nat (length (truncateDescription (JS.lit "Hello, wide world") (Some 10%Z))) <= 10)%Z.
Proof.
  split; [lia|]. split; [vm_compute; reflexivity|].
  apply (proj1 (truncateDescription_bound (JS.lit "Hello, wide world") 10 ltac:(lia))).
Defined.

(** X4: truncating a truncated description changes nothing more. *)
Theorem truncateDescription_idempotent (d : jsstring) (m : Z) :
  (3 <= m)%Z ->
  truncateDescription (truncateDescription d (Some m)) (Some m)
  = truncateDescription d (Some m).
Proof.
  intros Hm. rewrite (truncateDescription_cases (truncateDescription d (Some m))) by exact Hm.
  destruct (Z.leb_spec (Z.of_nat (length (truncateDescription d (Some m)))) m) as [_|Hgt];
    [reflexivity|].
  exfalso. rewrite truncateDescription_cases in Hgt by exact Hm.
  destruct (Z.leb_spec (Z.of_nat (length d)) m); [lia|].
  rewrite length_app, length_take in Hgt. change (length (JS.lit "...")) with 3%nat in Hgt.
  lia.
Qed.

Lemma truncateDescription_idempotent_witness :
  (3 <= 160)%Z /\
  truncateDescription (truncateDescription Inputs.long_description (Some 160%Z)) (Some 160%Z)
  = truncateDescription Inputs.long_description (Some 160%Z).
Proof.
  split; [lia|]. apply (truncateDescription_idempotent Inputs.long_description 160). lia.
Defined.

(** X5: a limit below 3 cannot be kept: every description longer than the
    limit becomes the bare ["..."], three code units. *)
Theorem truncateDescription_tiny_limit (d : jsstring) (m : Z) :
  (m < 3)%Z -> (m < Z.of_nat (length d))%Z ->
  truncateDescription d (Some m) = JS.lit "...".
Proof.
  intros Hm Hlen. unfold truncateDescription.
  change (default MAX_DESCRIPTION_LENGTH (Some m)) with m. cbn zeta.
  destruct (Z.leb_spec (Z.of_nat (length d)) m); [lia|].
  unfold JS.substring.
  rewrite (Z.max_l 0 0), (Z.min_l 0), (Z.max_r (m - 3) 0), (Z.min_l 0) by lia.
  reflexivity.
Qed.

Lemma truncateDescription_tiny_limit_witness :
  (2 < 3)%Z /\ (2 < Z.of_nat (length (JS.lit "abc")))%Z /\
  truncateDescription (JS.lit "abc") (Some 2%Z) = JS.lit "...".
Proof.
  split; [lia|]. split; [vm_compute; reflexivity|].
  apply (truncateDescription_tiny_limit (JS.lit "abc") 2); [lia | vm_compute; reflexivity].
Defined.

(** ** CACHED_ICONS and buildFAQSchema *)

Section Icons.
Context `{host : Host}.

(** One [if (path && ... && path.length > 0) icons.push(...)] step. *)
Lemma push_configured (p : option jsstring) (icons : list value)
      (icon : option jsstring -> value) :
  (if Val.truthy (Val.opt p) && (0 <? length (default [] p))%nat
   then icons ++ [icon p] else icons)
  = icons ++ match nonempty p with Some path => [icon (Some path)] | None => [] end.
Proof. destruct p as [[|c t]|]; cbn; rewrite ?app_nil_r; reflexivity. Qed.

(** X6: the cached icon list has one icon per icon path that is configured
    as a non-empty string, in the fixed order, with that path as [url]; an
    unset or empty path contributes no icon, so no icon has an empty
    [url]. *)
Theorem CACHED_ICONS_urls :
  exists icons,
    CACHED_ICONS = Arr icons /\
    Val.get "url" <$> icons = (fun path => Some (Str path)) <$> configured_icon_paths /\
    length icons = length configured_icon_paths /\
    Forall (fun path => path <> []) configured_icon_paths.
Proof.
  unfold CACHED_ICONS, configured_icon_paths. cbn zeta.
  generalize (AppConfig.icons appConfig ≫= AppConfig.faviconAny).
  generalize (AppConfig.icons appConfig ≫= AppConfig.icon32).
  generalize (AppConfig.icons appConfig ≫= AppConfig.icon48).
  generalize (AppConfig.icons appConfig ≫= AppConfig.icon192).
  generalize (AppConfig.icons appConfig ≫= AppConfig.icon512).
  generalize (AppConfig.icons appConfig ≫= AppConfig.appleTouch).
  intros p6 p5 p4 p3 p2 p1.
  repeat match goal with
         | |- context [if Val.truthy (Val.opt ?p) && _ then ?icons ++ [?icon] else ?icons] =>
             match eval pattern p in icon with
             | ?f _ => rewrite (push_configured p icons f)
             end
         end.
  cbn [omap list_omap].
  assert (Hne : forall p path, nonempty p = Some path -> path <> []).
  { intros [[|c t]|] path [= <-]. discriminate. }
  destruct (nonempty p1) eqn:H1, (nonempty p2) eqn:H2, (nonempty p3) eqn:H3,
    (nonempty p4) eqn:H4, (nonempty p5) eqn:H5, (nonempty p6) eqn:H6;
    eexists; (split; [reflexivity|]); (split; [reflexivity|]);
    (split; [reflexivity|]); repeat constructor; eauto.
Qed.

End Icons.

(** X7: the FAQ page lists one Question per pair, in the order given and
    without merging repeated questions; each carries the question as
    [name] and the answer as the [text] of its accepted answer. *)
Theorem buildFAQSchema_questions (faqs : list FAQ.t) :
  exists questions,
    Val.get "mainEntity" (buildFAQSchema faqs) = Some (Arr questions) /\
    length questions = length faqs /\
    forall i faq, faqs !! i = Some faq ->
      exists q,
        questions !! i = Some q /\
        Val.get "@type" q = Some (Str (JS.lit "Question")) /\
        Val.get "name" q = Some (Str (FAQ.question faq)) /\
        Val.path ["acceptedAnswer"; "text"] q = Some (Str (FAQ.answer faq)).
Proof.
  eexists. split; [reflexivity|]. split; [apply length_fmap|].
  intros i faq Hi. eexists. split; [rewrite list_lookup_fmap, Hi; reflexivity|].
  repeat split.
Qed.

Lemma buildFAQSchema_questions_witness :
  exists q,
    Val.path ["acceptedAnswer"; "text"] q = Some (Str (JS.lit "42")) /\
    Val.get "mainEntity"
      (buildFAQSchema [{| FAQ.question := JS.lit "Why?"; FAQ.answer := JS.lit "42" |}])
    = Some (Arr [q]).
Proof.
  destruct (buildFAQSchema_questions
              [{| FAQ.question := JS.lit "Why?"; FAQ.answer := JS.lit "42" |}])
    as (questions & Hget & Hlen & Hnth).
  destruct (Hnth 0%nat _ eq_refl) as (q & Hq & _ & _ & Htext).
  exists q. split; [exact Htext|]. rewrite Hget.
  destruct questions as [|q0 [|q1 rest]]; try discriminate Hlen.
  injection Hq as ->. reflexivity.
Defined.

(** ** constructMetadata *)

Section MetadataFacts.
Context `{host : Host}.

Ltac run_metadata H :=
  let c := fresh "canonical" in
  let b := fresh "metadataBase" in
  let Hc := fresh in
  let Hb := fresh in
  destruct H as [[c Hc] [b Hb]];
  unfold constructMetadata; cbn zeta;
  rewrite Hc; cbn [mbind option_bind];
  rewrite Hb; cbn [mbind option_bind].

(** X8: [constructMetadata] returns exactly when its two [URL]
    constructions succeed; when the configured site URL is no URL it
    throws for every argument. *)
Theorem constructMetadata_throws (args : ConstructArgs.t) :
  (is_Some (constructMetadata args) <-> URLs_resolve args) /\
  (URL_toString (AppConfig.url appConfig) None = None -> constructMetadata args = None).
Proof.
  split; [symmetry; apply constructMetadata_returns|].
  intros Hbase. unfold constructMetadata. cbn zeta.
  destruct (URL_toString (normalizePath _) _); cbn [mbind option_bind]; [|reflexivity].
  rewrite Hbase. reflexivity.
Qed.

(** X9: the metadata is consistent with itself: one title in the page,
    Open Graph and Twitter blocks; one description, of at most 160 code
    units, in those three places and as the image's [alt]; the canonical
    URL also as the Open Graph [url]; one image in both blocks. *)
Theorem constructMetadata_consistent (args : ConstructArgs.t) :
  URLs_resolve args ->
  exists m title description canonical image picture,
    constructMetadata args = Some m /\
    Val.get "title" m = Some (Str title) /\
    Val.path ["openGraph"; "title"] m = Some (Str title) /\
    Val.path ["twitter"; "title"] m = Some (Str title) /\
    Val.get "description" m = Some (Str description) /\
    Val.path ["openGraph"; "description"] m = Some (Str description) /\
    Val.path ["twitter"; "description"] m = Some (Str description) /\
    (length description <= 160)%nat /\
    Val.path ["alternates"; "canonical"] m = Some (Str canonical) /\
    Val.path ["openGraph"; "url"] m = Some (Str canonical) /\
    Val.path ["openGraph"; "images"] m = Some (Arr [picture]) /\
    Val.get "url" picture = Some (Str image) /\
    Val.get "alt" picture = Some (Str description) /\
    Val.path ["twitter"; "images"] m = Some (Arr [Str image]).
Proof.
  intros Hres. run_metadata Hres.
  eexists _, _, _, _, _, _. split; [reflexivity|].
  destruct (0 <? length (Val.own_props verification))%nat.
  all: repeat (split; [reflexivity|]).
  all: split; [|repeat (split; [reflexivity|]); reflexivity].
  all: apply truncateDescription_default_length.
Qed.

(** X10: a configured Open Graph locale wins over the [locale] argument;
    without one the locale is [l_L], [L] the upper-cased [l], where [l] is
    the argument, else the SEO default locale, else the site language. *)
Theorem constructMetadata_locale (args : ConstructArgs.t) :
  URLs_resolve args ->
  exists m shown,
    constructMetadata args = Some m /\
    Val.path ["openGraph"; "locale"] m = Some (Str shown) /\
    (forall fixed, AppConfig.og appConfig ≫= AppConfig.locale = Some fixed ->
                   shown = fixed) /\
    (AppConfig.og appConfig ≫= AppConfig.locale = None ->
     (forall l, ConstructArgs.locale args = Some l ->
                shown = l ++ JS.lit "_" ++ toUpperCase l) /\
     (ConstructArgs.locale args = None ->
      forall l, AppConfig.seo appConfig ≫= AppConfig.defaultLocale = Some l ->
                shown = l ++ JS.lit "_" ++ toUpperCase l) /\
     (ConstructArgs.locale args = None ->
      AppConfig.seo appConfig ≫= AppConfig.defaultLocale = None ->
      shown = AppConfig.lang appConfig ++ JS.lit "_" ++ toUpperCase (AppConfig.lang appConfig))).
Proof.
  intros Hres. run_metadata Hres.
  eexists _, _. split; [reflexivity|].
  split; [destruct (0 <? length (Val.own_props verification))%nat; reflexivity|].
  split.
  - intros fixed ->. reflexivity.
  - intros ->. cbn [default]. repeat split.
    + intros l ->. reflexivity.
    + intros -> l ->. reflexivity.
    + intros -> ->. reflexivity.
Qed.

End MetadataFacts.

(** ** buildBreadcrumbSchema and buildArticleSchema *)

Section UrlBuilderFacts.
Context `{host : Host}.

(** X11: [buildBreadcrumbSchema] returns exactly when every url resolves
    against the site URL, and throws as soon as one does not; on the empty
    list it returns an empty [itemListElement] whatever the host. *)
Theorem buildBreadcrumbSchema_returns_iff (breadcrumbs : list Breadcrumb.t) :
  (is_Some (buildBreadcrumbSchema breadcrumbs) <->
   Forall (fun item =>
             is_Some (URL_toString (Breadcrumb.url item) (Some (AppConfig.url appConfig))))
          breadcrumbs) /\
  (breadcrumbs = [] ->
   exists schema, buildBreadcrumbSchema breadcrumbs = Some schema /\
                  Val.get "itemListElement" schema = Some (Arr [])).
Proof.
  split.
  - split; [apply buildBreadcrumbSchema_returns|].
    intros Hall. unfold buildBreadcrumbSchema.
    match goal with
    | |- context [map_indexed ?f 0%nat breadcrumbs] =>
        destruct (map_indexed_Some f breadcrumbs 0) as (items & Hitems & _)
    end.
    + intros j item Hj. rewrite Forall_forall in Hall.
      destruct (Hall item) as [resolved Hr]; [eapply list_elem_of_lookup_2, Hj|].
      rewrite Hr. cbn [mbind option_bind]. eauto.
    + rewrite Hitems. cbn [mbind option_bind]. eauto.
  - intros ->. eexists. split; reflexivity.
Qed.

(** X12: [buildArticleSchema] returns exactly when the configured logo
    resolves against the site URL, whatever its argument; the publisher is
    then the fixed organization with the resolved logo. *)
Theorem buildArticleSchema_returns (args : ArticleArgs.t) :
  (is_Some (buildArticleSchema args) <->
   is_Some (URL_toString (AppConfig.logo appConfig) (Some (AppConfig.url appConfig)))) /\
  (forall schema, buildArticleSchema args = Some schema ->
     exists logo,
       URL_toString (AppConfig.logo appConfig) (Some (AppConfig.url appConfig)) = Some logo /\
       Val.path ["publisher"; "name"] schema = Some (Str (JS.lit "aifa.dev")) /\
       Val.path ["publisher"; "logo"; "url"] schema = Some (Str logo)).
Proof.
  unfold buildArticleSchema. cbn zeta.
  destruct (URL_toString (AppConfig.logo appConfig) _) as [logo|];
    cbn [mbind option_bind].
  - split; [split; eauto|]. intros schema [= <-]. exists logo. split; [reflexivity|].
    destruct (ArticleArgs.description args) as [[|? ?]|];
      destruct (ArticleArgs.image args) as [[|? ?]|]; split; reflexivity.
  - split; [split; intros [? [=]] | intros ? [=]].
Qed.

(** X13: in the Article, [headline] and [datePublished] are always there;
    one author gives a Person object and an array of authors an array of
    as many Person objects; [description] is there exactly when the
    argument is a non-empty string, and [image], wrapped as an
    ImageObject, exactly when the image argument is one. *)
Theorem buildArticleSchema_fields (args : ArticleArgs.t) (schema : value) :
  buildArticleSchema args = Some schema ->
  Val.get "headline" schema = Some (Str (ArticleArgs.headline args)) /\
  Val.get "datePublished" schema = Some (Str (ArticleArgs.datePublished args)) /\
  Val.get "author" schema =
    Some match ArticleArgs.author args with
         | ArticleArgs.One author => buildPersonSchema author
         | ArticleArgs.Many authors => Arr (buildPersonSchema <$> authors)
         end /\
  Val.get "description" schema = Str <$> nonempty (ArticleArgs.description args) /\
  Val.get "image" schema =
    (fun url => Obj [("@type", Str (JS.lit "ImageObject")); ("url", Str url)])
    <$> nonempty (ArticleArgs.image args).
Proof.
  unfold buildArticleSchema. cbn zeta.
  destruct (URL_toString (AppConfig.logo appConfig) _) as [logo|];
    cbn [mbind option_bind]; [|discriminate].
  intros [= <-].
  destruct (ArticleArgs.description args) as [[|? ?]|];
    destruct (ArticleArgs.image args) as [[|? ?]|]; repeat split.
Qed.

End UrlBuilderFacts.

(** ** buildProductSchema *)

(** X14: the Product always has its [name] and an [offers] block with the
    given currency and the fixed in-stock availability; [description] and
    [image] are there exactly when the argument is a non-empty string, and
    [brand], wrapped as a Brand object, exactly when the brand is one. *)
Theorem buildProductSchema_fields (args : ProductArgs.t) :
  let product := buildProductSchema args in
  Val.get "name" product = Some (Str (ProductArgs.name args)) /\
  Val.path ["offers"; "priceCurrency"] product = Some (Str (ProductArgs.currency args)) /\
  Val.path ["offers"; "availability"] product
    = Some (Str (JS.lit "https://schema.org/InStock")) /\
  Val.get "description" product = Str <$> nonempty (ProductArgs.description args) /\
  Val.get "image" product = Str <$> nonempty (ProductArgs.image args) /\
  Val.get "brand" product =
    (fun name => Obj [("@type", Str (JS.lit "Brand")); ("name", Str name)])
    <$> nonempty (ProductArgs.brand args).
Proof.
  cbn zeta. repeat split.
  all: unfold buildProductSchema; cbn zeta; unfold object at 1; cbn [fold_left];
       rewrite !spread_guarded;
       destruct (Val.truthy (Val.and _ _));
       destruct (ProductArgs.description args) as [[|? ?]|];
       destruct (ProductArgs.image args) as [[|? ?]|];
       destruct (ProductArgs.brand args) as [[|? ?]|];
       reflexivity.
Qed.

(** ** buildPersonSchema *)

(** X15: a Person object always has [@type] Person and the author's
    [name], even an empty one, and never a property outside [@type],
    [name], [url], [email], [image], [description], [jobTitle] and
    [sameAs]. *)
Theorem buildPersonSchema_keys (author : AuthorInfo.t) :
  let person := buildPersonSchema author in
  Val.get "@type" person = Some (Str (JS.lit "Person")) /\
  Val.get "name" person = Some (Str (AuthorInfo.name author)) /\
  forall k, is_Some (Val.get k person) ->
    In k ["@type"; "name"; "url"; "email"; "image"; "description"; "jobTitle"; "sameAs"].
Proof.
  cbn zeta. rewrite buildPersonSchema_unfold. cbn zeta.
  assert (Hlookup : forall k,
    Val.lookup_prop k
      (assigned "jobTitle" (AuthorInfo.jobTitle author)
         (assigned "description" (AuthorInfo.bio author)
            (assigned "image" (AuthorInfo.image author)
               (assigned "email" (AuthorInfo.email author)
                  (assigned "url" (AuthorInfo.url author)
                     [("@type", Str (JS.lit "Person"));
                      ("name", Str (AuthorInfo.name author))]))))) <> None ->
    k = "sameAs" \/
    In k ["@type"; "name"; "url"; "email"; "image"; "description"; "jobTitle"; "sameAs"]).
  { intros k. rewrite !lookup_assigned. cbn [Val.lookup_prop In].
    repeat match goal with |- context [nonempty ?o] => destruct (nonempty o) end;
      repeat match goal with
             | |- context [String.eqb k ?s] =>
                 destruct (String.eqb_spec k s) as [->|_]; [tauto|]
             end; congruence. }
  destruct (profile_urls author) as [|u urls]; cbn [Val.get].
  - rewrite !lookup_assigned. cbn [Val.lookup_prop String.eqb Ascii.eqb Bool.eqb].
    split; [|split].
    + repeat match goal with |- context [nonempty ?o] => destruct (nonempty o) end;
        reflexivity.
    + repeat match goal with |- context [nonempty ?o] => destruct (nonempty o) end;
        reflexivity.
    + intros k [v Hv]. destruct (Hlookup k) as [->|Hin]; [congruence | cbn; tauto | exact Hin].
  - rewrite !lookup_set_prop. cbn [String.eqb Ascii.eqb Bool.eqb].
    rewrite !lookup_assigned. cbn [Val.lookup_prop String.eqb Ascii.eqb Bool.eqb].
    split; [|split].
    + repeat match goal with |- context [nonempty ?o] => destruct (nonempty o) end;
        reflexivity.
    + repeat match goal with |- context [nonempty ?o] => destruct (nonempty o) end;
        reflexivity.
    + intros k [v Hv]. rewrite lookup_set_prop in Hv.
      destruct (String.eqb_spec k "sameAs") as [->|_]; [cbn; tauto|].
      destruct (Hlookup k) as [->|Hin]; [congruence | cbn; tauto | exact Hin].
Qed.

Lemma buildPersonSchema_keys_witness :
  Val.get "twitter" (buildPersonSchema DEFAULT_AUTHOR) = None.
Proof.
  destruct (Val.get "twitter" (buildPersonSchema DEFAULT_AUTHOR)) as [v|] eqn:Hv;
    [|reflexivity].
  exfalso.
  pose proof (proj2 (proj2 (buildPersonSchema_keys DEFAULT_AUTHOR)) "twitter"
                (ex_intro _ v Hv)) as Hin.
  cbn in Hin. repeat destruct Hin as [Hin|Hin]; try discriminate Hin. exact Hin.
Defined.

(** X16: a [twitter] field that opens with ["http"] is dropped: the
    [sameAs] list is then the record's own list alone, and there is no
    [sameAs] at all when that list is absent or empty. *)
Theorem buildPersonSchema_http_handle (author : AuthorInfo.t) (handle : jsstring) :
  AuthorInfo.twitter author = Some handle ->
  JS.startsWith handle (JS.lit "http") = true ->
  Val.get "sameAs" (buildPersonSchema author) =
  match default [] (AuthorInfo.sameAs author) with
  | [] => None
  | urls => Some (Arr (Str <$> urls))
  end.
Proof.
  intros Htw Hhttp. rewrite buildPersonSchema_sameAs. unfold profile_urls, derived_urls.
  rewrite Htw. destruct handle as [|c t]; [discriminate|]. cbn [nonempty].
  rewrite Hhttp, app_nil_r. reflexivity.
Qed.

Lemma replace_first_unit (before after : jsstring) (c : N) :
  ~ In c before -> JS.replace (before ++ c :: after) [c] [] = before ++ after.
Proof.
  induction before as [|d before IH]; intros Hnot; cbn [app JS.replace JS.is_prefix].
  - rewrite N.eqb_refl. reflexivity.
  - destruct (N.eqb_spec c d) as [->|_]; [contradiction Hnot; left; reflexivity|].
    cbn [andb]. rewrite IH; [reflexivity|]. intros Hin. apply Hnot. right. exact Hin.
Qed.

Lemma replace_no_unit (s : jsstring) (c : N) :
  ~ In c s -> JS.replace s [c] [] = s.
Proof.
  induction s as [|d s IH]; intros Hnot; cbn [JS.replace JS.is_prefix]; [reflexivity|].
  destruct (N.eqb_spec c d) as [->|_]; [contradiction Hnot; left; reflexivity|].
  cbn [andb]. rewrite IH; [reflexivity|]. intros Hin. apply Hnot. right. exact Hin.
Qed.

(** X17: the profile URL of a usable handle is [https://twitter.com/]
    followed by the handle without its first ["@"], wherever that stands:
    ["@name"] gives [.../name], ["a@b"] gives [.../ab], a later ["@"]
    stays, and a handle without any ["@"] is taken whole. *)
Theorem buildPersonSchema_handle_forms (author : AuthorInfo.t) (handle : jsstring) :
  AuthorInfo.twitter author = Some handle ->
  handle <> [] ->
  JS.startsWith handle (JS.lit "http") = false ->
  exists profile,
    Val.get "sameAs" (buildPersonSchema author) =
      Some (Arr (Str <$> (default [] (AuthorInfo.sameAs author) ++ [profile]))) /\
    (forall before after,
       handle = before ++ JS.lit "@" ++ after -> ~ In 64%N before ->
       profile = JS.lit "https://twitter.com/" ++ before ++ after) /\
    (~ In 64%N handle -> profile = JS.lit "https://twitter.com/" ++ handle).
Proof.
  intros Htw Hne Hhttp. exists (handle_url handle). split; [|split].
  - rewrite buildPersonSchema_sameAs. unfold profile_urls, derived_urls.
    rewrite Htw. destruct handle as [|c t]; [contradiction|]. cbn [nonempty].
    rewrite Hhttp. destruct (default [] (AuthorInfo.sameAs author)); reflexivity.
  - intros before after -> Hnot. unfold handle_url.
    change (JS.lit "@") with [64%N]. change (JS.lit "") with (@nil N).
    cbn [app]. rewrite replace_first_unit by exact Hnot. reflexivity.
  - intros Hnot. unfold handle_url.
    change (JS.lit "@") with [64%N]. change (JS.lit "") with (@nil N).
    rewrite replace_no_unit by exact Hnot. reflexivity.
Qed.

(** ** toFixed *)

Section ToFixedFacts.
Local Open Scope Z_scope.

Lemma read_uint_acc (d : Decimal.uint) (acc : positive) :
  read_digits_from (Zpos acc) (JS.lit (NilEmpty.string_of_uint d))
  = Some (Zpos (Pos.of_uint_acc d acc)).
Proof.
  revert acc. induction d; intros acc; [reflexivity|..];
    cbn [NilEmpty.string_of_uint Pos.of_uint_acc]; rewrite <- IHd;
    match goal with
    | |- read_digits_from ?a (JS.lit (String ?c ?r)) = read_digits_from ?b _ =>
        change (read_digits_from (10 * a + Z.of_N (N_of_ascii c - 48)) (JS.lit r)
                = read_digits_from b (JS.lit r))
    end;
    f_equal; simpl (Z.of_N _); lia.
Qed.

Lemma read_uint (d : Decimal.uint) :
  read_digits_from 0 (JS.lit (NilEmpty.string_of_uint d)) = Some (Z.of_N (N.of_uint d)).
Proof.
  induction d; [reflexivity | exact IHd |..]; apply (read_uint_acc d).
Qed.

Lemma read_digits_from_digits (n : Z) :
  0 <= n -> read_digits_from 0 (Number.digits n) = Some n.
Proof.
  intros Hn. unfold Number.digits.
  rewrite read_uint, DecimalN.Unsigned.of_to, Z2N.id by exact Hn. reflexivity.
Qed.

Lemma read_digits_from_zeros (k : nat) (s : jsstring) :
  read_digits_from 0 (repeat 48%N k ++ s) = read_digits_from 0 s.
Proof. induction k as [|k IH]; [reflexivity | exact IH]. Qed.

(** The point of [fixed n 2] stands before the last two of the digits of
    [n], zeros added in front when there are fewer than three. *)
Lemma fixed_split (n : Z) :
  exists whole frac,
    Number.fixed n 2 = whole ++ JS.lit "." ++ frac /\
    whole <> [] /\
    length frac = 2%nat /\
    whole ++ frac = repeat 48%N (3 - length (Number.digits n)) ++ Number.digits n.
Proof.
  unfold Number.fixed.
  set (m := repeat 48%N (2 + 1 - length (Number.digits n)) ++ Number.digits n).
  assert (Hlen : (3 <= length m)%nat).
  { subst m. rewrite length_app, repeat_length. lia. }
  exists (take (length m - 2) m), (drop (length m - 2) m).
  split; [reflexivity|]. split; [|split; [rewrite length_drop; lia | apply take_drop]].
  intros Hnil. apply (f_equal length) in Hnil. rewrite length_take in Hnil.
  cbn [length] in Hnil. lia.
Qed.

Example read_digits_rejects :
  read_digits [] = None /\ read_digits [304%N; 305%N] = None /\
  read_digits (JS.lit "1.0") = None /\ read_digits (JS.lit "007") = Some 7.
Proof. repeat split. Qed.

(** The digits [fixed n 2] prints, the point left out, denote [n]. *)
Lemma fixed_reads_back (n : Z) :
  0 <= n ->
  exists whole frac,
    Number.fixed n 2 = whole ++ JS.lit "." ++ frac /\
    whole <> [] /\ length frac = 2%nat /\ read_digits (whole ++ frac) = Some n.
Proof.
  intros Hn. destruct (fixed_split n) as (whole & frac & Hfixed & Hwhole & Hlen & Hdigits).
  exists whole, frac. split; [exact Hfixed|]. split; [exact Hwhole|]. split; [exact Hlen|].
  unfold read_digits. destruct (whole ++ frac) as [|c t] eqn:Hall.
  - destruct whole; [contradiction | discriminate Hall].
  - rewrite Hdigits, read_digits_from_zeros. apply read_digits_from_digits, Hn.
Qed.

Lemma nearest_nonneg (m : positive) (e : Z) : 0 <= Number.nearest m e 2.
Proof.
  unfold Number.nearest. destruct e as [|q|p].
  - lia.
  - pose proof (Z.pow_pos_nonneg 2 (Zpos q)). lia.
  - assert (0 < 2 ^ Zpos p) by (apply Z.pow_pos_nonneg; lia).
    apply Z.div_pos; lia.
Qed.

Lemma nearest_half (m p : positive) :
  let n := Number.nearest m (Zneg p) 2 in
  2 ^ Zpos p * (2 * n - 1) <= 200 * Zpos m < 2 ^ Zpos p * (2 * n + 1).
Proof.
  cbn zeta. unfold Number.nearest.
  assert (Hden : 0 < 2 ^ Zpos p) by (apply Z.pow_pos_nonneg; lia).
  set (den := 2 ^ Zpos p) in *.
  change (10 ^ Z.of_nat 2) with 100.
  pose proof (Z.div_mod (2 * (Zpos m * 100) + den) (2 * den) ltac:(lia)) as Hdiv.
  pose proof (Z.mod_pos_bound (2 * (Zpos m * 100) + den) (2 * den) ltac:(lia)) as Hmod.
  set (q := (2 * (Zpos m * 100) + den) / (2 * den)) in *.
  nia.
Qed.

End ToFixedFacts.

(** Below 10^21 the digits of [toFixed(2)], the point left out, denote
    the integer nearest to 100 times the magnitude. *)
Lemma toFixed_reads_back (x : number) :
  finite_below_1e21 x ->
  exists whole frac n,
    Number.toFixed x 2 = printed_sign x ++ whole ++ JS.lit "." ++ frac /\
    whole <> [] /\
    length frac = 2%nat /\
    read_digits (whole ++ frac) = Some n /\
    nearest_hundredth x n.
Proof.
  destruct x as [s|s| |s m e]; cbn [finite_below_1e21]; try contradiction.
  - intros _. cbn [Number.toFixed printed_sign nearest_hundredth].
    destruct (fixed_reads_back 0 ltac:(lia)) as (whole & frac & Hfixed & Hrest).
    exists whole, frac, 0%Z. rewrite Hfixed. split; [reflexivity|].
    destruct Hrest as (? & ? & ?). auto.
  - intros Hsmall. cbn [Number.toFixed]. rewrite Hsmall.
    destruct (fixed_reads_back (Number.nearest m e 2) (nearest_nonneg m e))
      as (whole & frac & Hfixed & Hwhole & Hlen & Hread).
    exists whole, frac, (Number.nearest m e 2).
    split; [rewrite Hfixed; destruct s; reflexivity|].
    split; [exact Hwhole|]. split; [exact Hlen|]. split; [exact Hread|].
    cbn [nearest_hundredth].
    destruct e as [|q|p];
      [unfold Number.nearest; change (10 ^ Z.of_nat 2)%Z with 100%Z; lia
      |unfold Number.nearest; change (10 ^ Z.of_nat 2)%Z with 100%Z; lia|].
    apply nearest_half.
Qed.


Section IntegralPrices.
Local Open Scope Z_scope.

Lemma lit_revapp (d d' : Decimal.uint) :
  JS.lit (NilEmpty.string_of_uint (Decimal.revapp d d'))
  = JS.lit (NilEmpty.string_of_uint (Decimal.revapp d Decimal.Nil))
    ++ JS.lit (NilEmpty.string_of_uint d').
Proof.
  revert d'. induction d; intros d'; cbn [Decimal.revapp];
    [reflexivity|rewrite IHd, (IHd (_ Decimal.Nil)), <- app_assoc; reflexivity..].
Qed.

Lemma digits_tenfold (k : Z) : 0 < k -> Number.digits (10 * k) = Number.digits k ++ [48%N].
Proof.
  intros Hk. unfold Number.digits.
  destruct k as [|q|q]; try lia.
  change (Z.to_N (10 * Z.pos q)) with (10 * N.pos q)%N.
  change (Z.to_N (Z.pos q)) with (N.pos q).
  pose proof (DecimalPos.Unsigned.to_ldec_tenfold q) as Hten.
  change (N.to_uint (10 * N.pos q)) with (Decimal.rev (DecimalPos.Unsigned.to_lu (10 * N.pos q))).
  rewrite Hten. change (N.to_uint (N.pos q)) with (Decimal.rev (DecimalPos.Unsigned.to_lu (N.pos q))).
  unfold Decimal.rev. cbn [Decimal.revapp].
  rewrite lit_revapp. reflexivity.
Qed.

Lemma digits_nonempty (k : Z) : Number.digits k <> [].
Proof.
  unfold Number.digits. destruct (Z.to_N k) as [|q]; [discriminate|].
  cbn [N.to_uint]. pose proof (DecimalPos.Unsigned.to_uint_nonnil q) as Hnil.
  destruct (Pos.to_uint q); [contradiction|..]; discriminate.
Qed.

Lemma fixed_hundredfold (k : Z) :
  0 <= k -> Number.fixed (100 * k) 2 = Number.digits k ++ JS.lit ".00".
Proof.
  intros Hk. destruct (Z.eq_dec k 0) as [->|Hne]; [reflexivity|].
  assert (Hdigits : Number.digits (100 * k) = Number.digits k ++ [48%N; 48%N]).
  { replace (100 * k) with (10 * (10 * k)) by lia.
    rewrite !digits_tenfold by lia. rewrite <- app_assoc. reflexivity. }
  unfold Number.fixed. rewrite Hdigits.
  assert (Hlen : (1 <= length (Number.digits k))%nat).
  { pose proof (digits_nonempty k). destruct (Number.digits k); [contradiction|].
    cbn [length]. lia. }
  generalize dependent (Number.digits k). intros ds _ Hlen.
  assert (Hpad : (2 + 1 - length (ds ++ [48%N; 48%N]) = 0)%nat)
    by (rewrite length_app; cbn [length]; lia).
  rewrite Hpad. cbn [repeat app].
  assert (Hcut : (length (ds ++ [48%N; 48%N]) - 2 = length ds)%nat)
    by (rewrite length_app; cbn [length]; lia).
  rewrite Hcut, take_app_length, drop_app_length. reflexivity.
Qed.

End IntegralPrices.

(** A whole number below 10^21 is rendered as its digits and [.00]. *)
Lemma toFixed_integer (x : number) (k : Z) :
  integer_value x k -> (k < 10 ^ 21)%Z ->
  Number.toFixed x 2 = printed_sign x ++ Number.digits k ++ JS.lit ".00".
Proof.
  destruct x as [s|s| |s m e]; cbn [integer_value]; try contradiction.
  - intros -> _. reflexivity.
  - intros Hk Hsmall.
    assert (Hsign : printed_sign (S754_finite s m e) = if s then JS.lit "-" else [])
      by (destruct s; reflexivity).
    rewrite Hsign. cbn [Number.toFixed].
    assert (Hk0 : (0 <= k)%Z /\ Number.ge_1e21 m e = false /\
                  Number.nearest m e 2 = (100 * k)%Z).
    { unfold Number.ge_1e21, Number.nearest. change (10 ^ Z.of_nat 2)%Z with 100%Z.
      destruct e as [|q|p].
      - subst k. split; [lia|]. split; [apply Z.leb_gt; exact Hsmall | lia].
      - subst k. pose proof (Z.pow_pos_nonneg 2 (Zpos q) ltac:(lia) ltac:(lia)).
        split; [lia|]. split; [apply Z.leb_gt; exact Hsmall | lia].
      - assert (Hden : (0 < 2 ^ Zpos p)%Z) by (apply Z.pow_pos_nonneg; lia).
        assert (Hpos : (0 < k)%Z) by nia.
        split; [lia|]. split; [apply Z.leb_gt; nia|].
        rewrite Hk. symmetry.
        apply (Z.div_unique _ _ _ (2 ^ Zpos p)); [lia | nia]. }
    destruct Hk0 as (Hk0 & Hge & Hnear). rewrite Hge, Hnear.
    rewrite fixed_hundredfold by exact Hk0. reflexivity.
Qed.

(** ** The price of a Product *)

(** X18: the rendered price reads back as the nearest hundredth: for a
    finite price below 10^21 in magnitude, zero included, [offers.price]
    is the printed sign, at least one digit, the point and exactly two
    digits, and these digits, the point left out, denote the integer [n]
    nearest to 100 times the magnitude, the upper one at a tie; a negative
    price keeps its minus sign, also when [n] is 0. *)
Theorem product_price_reads_back (args : ProductArgs.t) :
  finite_below_1e21 (ProductArgs.price args) ->
  exists whole frac n,
    Val.path ["offers"; "price"] (buildProductSchema args)
      = Some (Str (printed_sign (ProductArgs.price args) ++ whole ++ JS.lit "." ++ frac)) /\
    whole <> [] /\
    length frac = 2%nat /\
    read_digits (whole ++ frac) = Some n /\
    nearest_hundredth (ProductArgs.price args) n.
Proof.
  intros Hprice. rewrite buildProductSchema_price.
  destruct (toFixed_reads_back _ Hprice) as (whole & frac & n & -> & Hrest).
  exists whole, frac, n. split; [reflexivity | exact Hrest].
Qed.


(** X20: a whole-number price below 10^21 is rendered as its decimal
    digits followed by [.00], with a minus sign when it is negative. *)
Theorem product_price_integer (args : ProductArgs.t) (k : Z) :
  integer_value (ProductArgs.price args) k -> (k < 10 ^ 21)%Z ->
  Val.path ["offers"; "price"] (buildProductSchema args)
  = Some (Str (printed_sign (ProductArgs.price args) ++ Number.digits k ++ JS.lit ".00")).
Proof.
  intros Hvalue Hsmall. rewrite buildProductSchema_price.
  rewrite (toFixed_integer _ k Hvalue Hsmall). reflexivity.
Qed.

(** X21: an absent path, an empty one and one of white space only all
    normalize to ["/"]. *)
Theorem normalizePath_blank (p : option jsstring) :
  JS.trim (default [] p) = [] -> normalizePath p = JS.lit "/".
Proof.
  intros Hblank. unfold normalizePath.
  destruct (negb (Val.truthy (Val.opt p))); [reflexivity|].
  rewrite Hblank. reflexivity.
Qed.

(** ** The further properties at concrete inputs *)

Lemma CACHED_ICONS_urls_witness :
  exists icons,
    @CACHED_ICONS Cases.host = Arr icons /\
    Val.get "url" <$> icons
    = [Some (Str (JS.lit "/favicon.ico")); Some (Str (JS.lit "/apple-touch-icon.png"))].
Proof.
  destruct (@CACHED_ICONS_urls Cases.host) as (icons & Hicons & Hurls & _ & _).
  exists icons. split; [exact Hicons | exact Hurls].
Defined.

Lemma constructMetadata_throws_witness :
  is_Some (@constructMetadata Sample.host ConstructArgs.empty) /\
  @URL_toString Cases.broken_host (AppConfig.url (@appConfig Cases.broken_host)) None = None /\
  @constructMetadata Cases.broken_host ConstructArgs.empty = None.
Proof.
  split; [|split; [reflexivity|]].
  - apply (proj2 (proj1 (@constructMetadata_throws Sample.host ConstructArgs.empty))).
    split; eexists; vm_compute; reflexivity.
  - apply (proj2 (@constructMetadata_throws Cases.broken_host ConstructArgs.empty)).
    reflexivity.
Defined.

Lemma constructMetadata_consistent_witness :
  @URLs_resolve Cases.host Cases.french_args /\
  exists m,
    @constructMetadata Cases.host Cases.french_args = Some m /\
    Val.path ["openGraph"; "title"] m = Some (Str (JS.lit "Accueil")) /\
    Val.path ["openGraph"; "url"] m = Some (Str (JS.lit "https://aifa.dev/")).
Proof.
  assert (Hres : @URLs_resolve Cases.host Cases.french_args)
    by (split; eexists; vm_compute; reflexivity).
  split; [exact Hres|].
  destruct (@constructMetadata_consistent Cases.host Cases.french_args Hres)
    as (m & title & description & canonical & image & picture & Hm & Ht & Hogt & _ & _ & _
        & _ & _ & Hc & Hogu & _).
  exists m. split; [exact Hm|].
  assert (Hm' := Hm). vm_compute in Hm'. injection Hm' as <-.
  vm_compute in Ht. injection Ht as <-. vm_compute in Hc. injection Hc as <-.
  split; [exact Hogt | exact Hogu].
Defined.

Lemma constructMetadata_locale_witness :
  @URLs_resolve Cases.host Cases.french_args /\
  ConstructArgs.locale Cases.french_args = Some (JS.lit "fr") /\
  exists m,
    @constructMetadata Cases.host Cases.french_args = Some m /\
    Val.path ["openGraph"; "locale"] m = Some (Str (JS.lit "en_US")).
Proof.
  assert (Hres : @URLs_resolve Cases.host Cases.french_args)
    by (split; eexists; vm_compute; reflexivity).
  split; [exact Hres|]. split; [reflexivity|].
  destruct (@constructMetadata_locale Cases.host Cases.french_args Hres)
    as (m & shown & Hm & Hshown & Hfixed & _).
  exists m. split; [exact Hm|].
  rewrite Hshown, (Hfixed (JS.lit "en_US") eq_refl). reflexivity.
Defined.

Lemma buildBreadcrumbSchema_returns_iff_witness :
  @buildBreadcrumbSchema Sample.host Cases.broken_crumbs = None /\
  is_Some (@buildBreadcrumbSchema Cases.broken_host []).
Proof.
  split.
  - destruct (@buildBreadcrumbSchema Sample.host Cases.broken_crumbs) as [schema|] eqn:Hs;
      [|reflexivity].
    pose proof (proj1 (proj1 (@buildBreadcrumbSchema_returns_iff Sample.host Cases.broken_crumbs))
                  (ex_intro _ schema Hs)) as Hall.
    inversion Hall as [|? ? _ Hrest]; subst. inversion Hrest as [|? ? [? Hbad] _]; subst.
    discriminate Hbad.
  - destruct (proj2 (@buildBreadcrumbSchema_returns_iff Cases.broken_host []) eq_refl)
      as (schema & Hs & _).
    exists schema. exact Hs.
Defined.

Lemma buildArticleSchema_returns_witness :
  is_Some (@buildArticleSchema Sample.host Inputs.article) /\
  @buildArticleSchema Cases.broken_host Inputs.article = None.
Proof.
  split.
  - apply (proj1 (@buildArticleSchema_returns Sample.host Inputs.article)).
    eexists. vm_compute. reflexivity.
  - destruct (@buildArticleSchema Cases.broken_host Inputs.article) as [schema|] eqn:Hs;
      [|reflexivity].
    destruct (proj1 (proj1 (@buildArticleSchema_returns Cases.broken_host Inputs.article))
                (ex_intro _ schema Hs)) as [logo Hlogo].
    vm_compute in Hlogo. discriminate Hlogo.
Defined.

Lemma buildArticleSchema_fields_witness :
  exists schema,
    @buildArticleSchema Sample.host Inputs.article = Some schema /\
    Val.get "author" schema = Some (buildPersonSchema DEFAULT_AUTHOR) /\
    Val.get "image" schema = None.
Proof.
  destruct (@buildArticleSchema Sample.host Inputs.article) as [schema|] eqn:Hs;
    [|vm_compute in Hs; discriminate Hs].
  exists schema. split; [reflexivity|].
  destruct (@buildArticleSchema_fields Sample.host Inputs.article schema Hs)
    as (_ & _ & Hauthor & _ & Himage).
  split; [exact Hauthor | exact Himage].
Defined.

Lemma buildPersonSchema_http_handle_witness :
  JS.startsWith (JS.lit "https://x.com/a") (JS.lit "http") = true /\
  Val.get "sameAs" (buildPersonSchema (Cases.author (JS.lit "https://x.com/a"))) = None.
Proof.
  split; [reflexivity|].
  exact (buildPersonSchema_http_handle (Cases.author (JS.lit "https://x.com/a"))
           (JS.lit "https://x.com/a") eq_refl eq_refl).
Defined.

Lemma buildPersonSchema_handle_forms_witness :
  JS.lit "a@b@c" <> [] /\
  JS.startsWith (JS.lit "a@b@c") (JS.lit "http") = false /\
  ~ In 64%N (JS.lit "a") /\
  exists profile,
    Val.get "sameAs" (buildPersonSchema (Cases.author (JS.lit "a@b@c")))
    = Some (Arr [Str profile]) /\
    profile = JS.lit "https://twitter.com/ab@c".
Proof.
  assert (Hne : JS.lit "a@b@c" <> []) by discriminate.
  assert (Hnot : ~ In 64%N (JS.lit "a")) by (intros [H|[]]; discriminate H).
  split; [exact Hne|]. split; [reflexivity|]. split; [exact Hnot|].
  destruct (buildPersonSchema_handle_forms (Cases.author (JS.lit "a@b@c")) (JS.lit "a@b@c")
              eq_refl Hne eq_refl) as (profile & Hget & Hat & _).
  exists profile. split; [exact Hget|].
  exact (Hat (JS.lit "a") (JS.lit "b@c") eq_refl Hnot).
Defined.

Lemma product_price_reads_back_witness :
  finite_below_1e21 Cases.n1_005 /\
  Val.path ["offers"; "price"] (buildProductSchema (Inputs.product Cases.n1_005 None None))
  = Some (Str (JS.lit "1.00")) /\
  read_digits (JS.lit "100") = Some 100%Z /\
  nearest_hundredth Cases.n1_005 100 /\
  exists whole frac n,
    Val.path ["offers"; "price"] (buildProductSchema (Inputs.product Cases.n1_005 None None))
      = Some (Str ([] ++ whole ++ JS.lit "." ++ frac)) /\
    whole <> [] /\
    length frac = 2%nat /\
    read_digits (whole ++ frac) = Some n /\
    nearest_hundredth Cases.n1_005 n.
Proof.
  assert (Hprice : finite_below_1e21 Cases.n1_005) by reflexivity.
  split; [exact Hprice|]. split; [vm_compute; reflexivity|].
  split; [reflexivity|]. split; [unfold nearest_hundredth, Cases.n1_005; lia|].
  exact (product_price_reads_back (Inputs.product Cases.n1_005 None None) Hprice).
Defined.


Lemma product_price_integer_witness :
  integer_value Cases.nine 9 /\ (9 < 10 ^ 21)%Z /\
  Val.path ["offers"; "price"] (buildProductSchema (Inputs.product Cases.nine None None))
  = Some (Str (JS.lit "9.00")).
Proof.
  assert (Hvalue : integer_value Cases.nine 9) by reflexivity.
  assert (Hsmall : (9 < 10 ^ 21)%Z) by reflexivity.
  split; [exact Hvalue|]. split; [exact Hsmall|].
  exact (product_price_integer (Inputs.product Cases.nine None None) 9 Hvalue Hsmall).
Defined.

Lemma normalizePath_blank_witness :
  JS.trim (default [] (Some (JS.lit "   "))) = [] /\
  normalizePath (Some (JS.lit "   ")) = JS.lit "/".
Proof.
  split; [reflexivity|]. apply (normalizePath_blank (Some (JS.lit "   "))). reflexivity.
Defined.

(** X22: a trailing slash is kept, as is any other last code unit: the
    result ends as the trimmed input does. *)
Theorem normalizePath_keeps_end (s : jsstring) :
  JS.trim s <> [] -> last (normalizePath (Some s)) = last (JS.trim s).
Proof.
  intros Hne. unfold normalizePath.
  destruct s as [|c t]; [contradiction Hne; reflexivity|].
  cbn [Val.opt Val.truthy JS.truthy negb default]. unfold id.
  rewrite collapse_last.
  destruct (JS.startsWith _ _); cbn [negb]; [reflexivity|].
  change (JS.lit "/") with [47%N].
  destruct (JS.trim (c :: t)) as [|d r]; [contradiction|reflexivity].
Qed.

Lemma normalizePath_keeps_end_witness :
  JS.trim (JS.lit " docs//api/ ") <> [] /\
  normalizePath (Some (JS.lit " docs//api/ ")) = JS.lit "/docs/api/" /\
  last (normalizePath (Some (JS.lit " docs//api/ "))) = Some 47%N.
Proof.
  assert (Hne : JS.trim (JS.lit " docs//api/ ") <> []) by (vm_compute; discriminate).
  split; [exact Hne|]. split; [vm_compute; reflexivity|].
  rewrite (normalizePath_keeps_end (JS.lit " docs//api/ ") Hne). vm_compute. reflexivity.
Defined.

Section Headers.
Context `{host : Host}.

(** X23: every structured-data object is headed by the schema.org
    context and its own type, which no optional member can replace. *)
Theorem schema_headers :
  (forall faqs, schema_header "FAQPage" (buildFAQSchema faqs)) /\
  (forall args, schema_header "Product" (buildProductSchema args)) /\
  (forall args schema, buildArticleSchema args = Some schema ->
                       schema_header "Article" schema) /\
  (forall breadcrumbs schema, buildBreadcrumbSchema breadcrumbs = Some schema ->
                              schema_header "BreadcrumbList" schema).
Proof.
  unfold schema_header. repeat split.
  1-2: unfold buildProductSchema; cbn zeta; unfold object at 1; cbn [fold_left];
       rewrite !spread_guarded;
       destruct (Val.truthy (Val.and _ _));
       destruct (ProductArgs.description args) as [[|? ?]|];
       destruct (ProductArgs.image args) as [[|? ?]|];
       destruct (ProductArgs.brand args) as [[|? ?]|];
       reflexivity.
  1-2: revert H; unfold buildArticleSchema; cbn zeta;
       destruct (URL_toString (AppConfig.logo appConfig) _) as [logo|];
       cbn [mbind option_bind]; [|discriminate];
       intros [= <-];
       destruct (ArticleArgs.description args) as [[|? ?]|];
       destruct (ArticleArgs.image args) as [[|? ?]|]; reflexivity.
  1-2: revert H; unfold buildBreadcrumbSchema;
       destruct (map_indexed _ _ _) as [items|]; cbn [mbind option_bind]; [|discriminate];
       intros [= <-]; reflexivity.
Qed.

End Headers.

Lemma schema_headers_witness :
  exists schema,
    @buildBreadcrumbSchema Sample.host Inputs.home_blog = Some schema /\
    schema_header "BreadcrumbList" schema.
Proof.
  destruct (@buildBreadcrumbSchema Sample.host Inputs.home_blog) as [schema|] eqn:Hs;
    [|vm_compute in Hs; discriminate Hs].
  exists schema. split; [reflexivity|].
  exact (proj2 (proj2 (proj2 (@schema_headers Sample.host))) Inputs.home_blog schema Hs).
Defined.
